(** * OneTrainer: training-step predictor, data-loader pipeline assembly,
      Sana sampler and the training entry point

    A shallow embedding of

    - [modules/modelSetup/StableDiffusionFineTuneSetup.py]
    - [modules/dataLoader/MgdsStableDiffusionVaeFineTuneVaeDataLoader.py]
    - [modules/modelSampler/SanaSampler.py]
    - [scripts/train.py]

    Python code that raises is embedded with an explicit result type, code
    that mutates objects (random generators, the file system) threads a
    [World].  PyTorch, diffusers and mgds are libraries: the parts of them
    the program calls are embedded as small executable models of their
    documented behaviour, or kept as fields of the objects that own them
    (the networks of a model). *)

From Stdlib Require Import Ascii String ZArith QArith Qround Qabs Lia Lqa.
From stdpp Require Import base gmap strings list.

Open Scope Z_scope.

(** ** Python exceptions and results *)

Inductive exn : Type :=
| KeyError (key : string)
| TypeError
| IndexError
| AttributeError
| ValueError
| RuntimeError
| KeyboardInterrupt.

Inductive Res (A : Type) : Type :=
| Ok (a : A)
| Raise (e : exn).
Arguments Ok {A} a.
Arguments Raise {A} e.

Definition res_bind {A B} (r : Res A) (k : A -> Res B) : Res B :=
  match r with
  | Ok a => k a
  | Raise e => Raise e
  end.

Definition is_ok {A} (r : Res A) : bool :=
  match r with Ok _ => true | Raise _ => false end.

(** ** A model of the PyTorch operations the program uses *)

Module Torch.

(** Floating-point scalars.  The arithmetic is kept abstract (every
    rounding mode and precision is an instance); [F2Q] gives the rational
    value of a finite float, which is all that comparisons and Python's
    [int()] look at.  NaN and infinities are outside the model. *)
Class Float : Type := {
  F : Type;
  F2Q : F -> Q;
  of_Z : Z -> F;
  fadd : F -> F -> F;
  fsub : F -> F -> F;
  fmul : F -> F -> F;
  fdiv : F -> F -> F;
  fsqrt : F -> F
}.

(** Random generators.  [raw_next] yields the next raw draw and the
    advanced generator; [normal_of_raw] is the transform [torch.randn]
    applies to a draw for a given dtype. *)
Class Rng `{Float} : Type := {
  Generator : Type;
  new_generator : string -> Generator;
  manual_seed : Z -> Generator -> Generator;
  raw_next : Generator -> Z * Generator;
  normal_of_raw : string -> Z -> F
}.

Section Tensors.
Context `{Float}.

(** Python's [x > 0] on a float. *)
Definition gt0 (x : F) : bool := negb (Qle_bool (F2Q x) 0).

(** Python's [int(x)]: truncation towards zero. *)
Definition py_int (x : F) : Z :=
  if Qle_bool 0 (F2Q x) then Qfloor (F2Q x) else Qceiling (F2Q x).

(** A tensor is its shape and its elements, addressed by multi-index. *)
Record Tensor : Type := mkTensor {
  shape : list nat;
  item : list nat -> F
}.

Definition numel (s : list nat) : nat := foldr Nat.mul 1%nat s.

(** Row-major offset of a multi-index. *)
Fixpoint ravel (s idx : list nat) (acc : nat) : nat :=
  match s, idx with
  | d :: s', i :: idx' => ravel s' idx' (acc * d + i)%nat
  | _, _ => acc
  end.

Fixpoint unravel (s : list nat) (k : nat) : list nat :=
  match s with
  | [] => []
  | _ :: s' => (k / numel s')%nat :: unravel s' (k mod numel s')%nat
  end.

(** [t.shape[i]] *)
Definition shape_at (t : Tensor) (i : nat) : Res nat :=
  match shape t !! i with
  | Some d => Ok d
  | None => Raise IndexError
  end.

Definition tmap (f : F -> F) (t : Tensor) : Tensor :=
  {| shape := shape t; item := fun idx => f (item t idx) |}.

(** [t * k], [k * t], [t / k], [k - t], [t ** 0.5] for a scalar [k]. *)
Definition mul_scalar (t : Tensor) (k : F) : Tensor := tmap (fun x => fmul x k) t.
Definition scalar_mul (k : F) (t : Tensor) : Tensor := tmap (fun x => fmul k x) t.
Definition div_scalar (t : Tensor) (k : F) : Tensor := tmap (fun x => fdiv x k) t.
Definition scalar_sub (k : F) (t : Tensor) : Tensor := tmap (fun x => fsub k x) t.
Definition sqrt_t (t : Tensor) : Tensor := tmap fsqrt t.

(** [t.clamp(lo, hi)] with integer bounds. *)
Definition clamp1 (lo hi : Z) (x : F) : F :=
  if negb (Qle_bool (inject_Z lo) (F2Q x)) then of_Z lo
  else if negb (Qle_bool (F2Q x) (inject_Z hi)) then of_Z hi
  else x.
Definition clamp (t : Tensor) (lo hi : Z) : Tensor := tmap (clamp1 lo hi) t.

(** *** Broadcasting *)

Definition bdim (a b : nat) : option nat :=
  if (a =? b)%nat then Some a
  else if (a =? 1)%nat then Some b
  else if (b =? 1)%nat then Some a
  else None.

(** Broadcast of two shapes given last dimension first. *)
Fixpoint bshape_rev (a b : list nat) : option (list nat) :=
  match a, b with
  | [], _ => Some b
  | _, [] => Some a
  | x :: a', y :: b' =>
      match bdim x y, bshape_rev a' b' with
      | Some d, Some r => Some (d :: r)
      | _, _ => None
      end
  end.

Definition bshape (a b : list nat) : option (list nat) :=
  match bshape_rev (rev a) (rev b) with
  | Some r => Some (rev r)
  | None => None
  end.

(** The index of an operand of shape [s] for the index [idx] of the
    broadcast result: leading dimensions the operand lacks are dropped,
    dimensions of size one are read at 0. *)
Definition bindex (s idx : list nat) : list nat :=
  zip_with (fun d i => if (d =? 1)%nat then 0%nat else i) s
           (drop (length idx - length s) idx).

Definition broadcast2 (op : F -> F -> F) (x y : Tensor) : Res Tensor :=
  match bshape (shape x) (shape y) with
  | Some s =>
      Ok {| shape := s;
            item := fun idx => op (item x (bindex (shape x) idx))
                                  (item y (bindex (shape y) idx)) |}
  | None => Raise RuntimeError
  end.

Definition add_t := broadcast2 fadd.
Definition sub_t := broadcast2 fsub.
Definition mul_t := broadcast2 fmul.
Definition div_t := broadcast2 fdiv.

(** *** [torch.concat(tensors, dim)] *)

Fixpoint concat_item (ts : list Tensor) (dim : nat) (idx : list nat) : F :=
  match ts with
  | [] => of_Z 0
  | t :: ts' =>
      let k := default 0%nat (idx !! dim) in
      let sz := default 0%nat (shape t !! dim) in
      if (k <? sz)%nat then item t idx
      else concat_item ts' dim (<[dim := (k - sz)%nat]> idx)
  end.

Definition concat_size (ts : list Tensor) (dim : nat) : nat :=
  foldr (fun t acc => (default 0%nat (shape t !! dim) + acc)%nat) 0%nat ts.

(** All dimensions but [dim] must agree. *)
Definition concat_compatible (t0 t : Tensor) (dim : nat) : bool :=
  bool_decide (delete dim (shape t0) = delete dim (shape t))
  && bool_decide (length (shape t0) = length (shape t)).

Definition concat (ts : list Tensor) (dim : nat) : Res Tensor :=
  match ts with
  | [] => Raise RuntimeError
  | t0 :: _ =>
      if negb (dim <? length (shape t0))%nat then Raise IndexError
      else if forallb (fun t => concat_compatible t0 t dim) ts
      then Ok {| shape := <[dim := concat_size ts dim]> (shape t0);
                 item := concat_item ts dim |}
      else Raise RuntimeError
  end.

(** *** Indexing a 1-D tensor by a tensor of integers, [t[idx]] *)

Definition wrap_index (len : nat) (i : Z) : option nat :=
  if (0 <=? i) && (i <? Z.of_nat len) then Some (Z.to_nat i)
  else if (- Z.of_nat len <=? i) && (i <? 0) then Some (Z.to_nat (i + Z.of_nat len))
  else None.

Definition index_by (t : Tensor) (idx : list Z) : Res Tensor :=
  match shape t with
  | [len] =>
      if forallb (fun i => bool_decide (is_Some (wrap_index len i))) idx
      then Ok {| shape := [length idx];
                 item := fun k =>
                   match k with
                   | [n] => item t [default 0%nat (wrap_index len (nth n idx 0))]
                   | _ => of_Z 0
                   end |}
      else Raise IndexError
  | _ => Raise IndexError
  end.

(** [t.flatten()] *)
Definition flatten (t : Tensor) : Tensor :=
  {| shape := [numel (shape t)];
     item := fun k =>
       match k with
       | [n] => item t (unravel (shape t) n)
       | _ => of_Z 0
       end |}.

(** [t.reshape(-1, 1, 1, 1)] *)
Definition reshape_m1_1_1_1 (t : Tensor) : Tensor :=
  {| shape := [numel (shape t); 1%nat; 1%nat; 1%nat];
     item := fun idx =>
       item t (unravel (shape t) (ravel [numel (shape t); 1%nat; 1%nat; 1%nat] idx 0)) |}.

End Tensors.

Section Random.
Context `{Rng}.

Definition advance (g : Generator) : Generator := snd (raw_next g).

(** The [k]-th next raw draw of a generator. *)
Definition raw_at (g : Generator) (k : nat) : Z :=
  fst (raw_next (Nat.iter k advance g)).

(** [torch.randn(size, generator=g, dtype=dtype)]: one draw per element,
    in row-major order. *)
Definition randn_from (size : list nat) (dtype : string) (g : Generator)
  : Tensor * Generator :=
  ({| shape := size;
      item := fun idx => normal_of_raw dtype (raw_at g (ravel size idx 0)) |},
   Nat.iter (numel size) advance g).

(** [torch.randint(low, high, size=(n,))] on a generator: each value is
    [low] plus a raw draw reduced modulo the width of the range; an empty
    range is an error. *)
Definition randint_from (low high : Z) (n : nat) (g : Generator)
  : Res (list Z * Generator) :=
  if high <=? low then Raise RuntimeError
  else Ok (map (fun k => low + raw_at g k mod (high - low)) (seq 0 n),
           Nat.iter n advance g).

End Random.

End Torch.

(** ** Objects shared by the training code *)

(** [modules/util/TrainProgress.py]: the counters owned by the trainer. *)
Record TrainProgress : Type := mkTrainProgress {
  epoch : Z;
  epoch_sample : Z;
  global_step : Z
}.

(** Modelled from the spec: [modules/util/enum/ModelType.py] is not among
    the sources; a model type is used only through its three capability
    queries ("capability flags: has_depth_input,
    has_conditioning_image_input, has_mask_input"). *)
Record ModelType : Type := mkModelType {
  has_mask_input : bool;
  has_conditioning_image_input : bool;
  has_depth_input : bool
}.

(** [modules/util/enum/TrainingMethod.py], the members [scripts/train.py]
    dispatches on. *)
Inductive TrainingMethod : Type :=
| FINE_TUNE
| LORA
| EMBEDDING
| FINE_TUNE_VAE.

(** The fields of [TrainArgs] the embedded code reads. *)
Record TrainArgs {FL : Torch.Float} : Type := mkTrainArgs {
  training_method : TrainingMethod;
  model_type : ModelType;
  train_device : string;
  train_dtype : string;
  train_text_encoder : bool;
  train_text_encoder_epochs : Z;
  offset_noise_weight : Torch.F;
  max_noising_strength : Torch.F;
  debug_mode : bool;
  debug_dir : string;
  masked_training : bool;
  random_rotate_and_crop : bool;
  aspect_ratio_bucketing : bool;
  latent_caching : bool;
  latent_caching_epochs : Z;
  cache_dir : string;
  batch_size : Z;
  resolution : Z;
  backup_before_save : bool
}.

(** An attribute of a Python object that [del] can remove. *)
Inductive attr (A : Type) : Type :=
| Absent
| Value (a : A).
Arguments Absent {A}.
Arguments Value {A} a.

(** ** [modules/model/StableDiffusionModel.py] *)

Module StableDiffusionModel.
Import Torch.

Section Model.
Context `{Float}.

(** A [torch.nn.Parameter], as far as the setup code touches it. *)
Record NNParameter : Type := mkNNParameter {
  param_name : string;
  requires_grad : bool
}.

(** [module.requires_grad_(b)]: sets the flag of every parameter. *)
Definition requires_grad_ (b : bool) (ps : list NNParameter) : list NNParameter :=
  map (fun p => {| param_name := param_name p; requires_grad := b |}) ps.

Record CLIPTextModel : Type := mkTextEncoder {
  te_parameters : list NNParameter;
  te_forward : list (list Z) -> Tensor
}.

Record AutoencoderKL : Type := mkVae {
  vae_parameters : list NNParameter;
  scaling_factor : F;
  vae_decode : Tensor -> Tensor
}.

Record UNet2DConditionModel : Type := mkUnet {
  unet_parameters : list NNParameter;
  unet_forward : Tensor -> list Z -> Tensor -> option Tensor -> Tensor
}.

Record DDPMScheduler : Type := mkScheduler {
  num_train_timesteps : Z;
  add_noise : Tensor -> Tensor -> list Z -> Tensor;
  alphas_cumprod : Tensor
}.

(** Modelled from the spec: [modules/util/create.py] is not among the
    sources ("optimizer factory: out of scope, consumed as opaque
    construct operation"); an optimizer is the names of the parameters it
    was built over and the state it was loaded with. *)
Record Optimizer : Type := mkOptimizer {
  opt_parameters : list string;
  opt_state : option string
}.

Record StableDiffusionModel : Type := mkModel {
  noise_scheduler : DDPMScheduler;
  text_encoder : CLIPTextModel;
  vae : AutoencoderKL;
  unet : UNet2DConditionModel;
  optimizer : option Optimizer;
  optimizer_state_dict : attr (option string);
  train_progress : TrainProgress
}.

End Model.
End StableDiffusionModel.

(** ** [modules/modelSetup/StableDiffusionFineTuneSetup.py] *)

Module StableDiffusionFineTuneSetup.
Import Torch StableDiffusionModel.

Section Setup.
Context `{Rng}.

(** *** Mutable state: generators and the debug directory *)

(** Modelled from the spec: [BaseModelSetup.save_image] is not among the
    sources; it "persists" a decoded tensor "as inspection image" under a
    directory, a name and a step number. *)
Record SavedImage : Type := mkSavedImage {
  si_image : Tensor;
  si_directory : string;
  si_name : string;
  si_step : Z
}.

(** [default_generator] is the default generator of the device, the one
    PyTorch draws from when a call is given no [generator=];
    [generators] holds the [torch.Generator] objects created so far,
    addressed by position. *)
Record World : Type := mkWorld {
  default_generator : Generator;
  generators : list Generator;
  saved_images : list SavedImage
}.

Definition M (A : Type) : Type := World -> Res (A * World).

Definition ret {A} (a : A) : M A := fun w => Ok (a, w).

Definition bind {A B} (m : M A) (k : A -> M B) : M B :=
  fun w =>
    match m w with
    | Ok (a, w') => k a w'
    | Raise e => Raise e
    end.

Definition lift {A} (r : Res A) : M A :=
  fun w =>
    match r with
    | Ok a => Ok (a, w)
    | Raise e => Raise e
    end.

Notation "'do' x <- m ; k" := (bind m (fun x => k))
  (at level 10, x name, m at level 100, k at level 200).
Notation "'exec' m ; k" := (bind m (fun _ => k))
  (at level 10, m at level 100, k at level 200).

(** [torch.Generator(device=device)] *)
Definition torch_Generator (device : string) : M nat :=
  fun w =>
    Ok (length (generators w),
        {| default_generator := default_generator w;
           generators := generators w ++ [new_generator device];
           saved_images := saved_images w |}).

(** [generator.manual_seed(seed)] *)
Definition generator_manual_seed (g : nat) (seed : Z) : M unit :=
  fun w =>
    match generators w !! g with
    | Some st =>
        Ok (tt, {| default_generator := default_generator w;
                   generators := <[g := manual_seed seed st]> (generators w);
                   saved_images := saved_images w |})
    | None => Raise RuntimeError
    end.

(** [torch.randn(size, generator=g, device=..., dtype=dtype)] *)
Definition torch_randn (size : list nat) (g : nat) (dtype : string) : M Tensor :=
  fun w =>
    match generators w !! g with
    | Some st =>
        let '(t, st') := randn_from size dtype st in
        Ok (t, {| default_generator := default_generator w;
                  generators := <[g := st']> (generators w);
                  saved_images := saved_images w |})
    | None => Raise RuntimeError
    end.

(** [torch.randint(low=low, high=high, size=(n,), device=...)]: no
    generator is passed, the draws come from the default generator. *)
Definition torch_randint (low high : Z) (n : nat) : M (list Z) :=
  fun w =>
    match randint_from low high n (default_generator w) with
    | Ok (ts, st') =>
        Ok (ts, {| default_generator := st';
                   generators := generators w;
                   saved_images := saved_images w |})
    | Raise e => Raise e
    end.

Definition save_image (image : Tensor) (directory name : string) (step : Z) : M unit :=
  fun w =>
    Ok (tt, {| default_generator := default_generator w;
               generators := generators w;
               saved_images := saved_images w ++ [mkSavedImage image directory name step] |}).

(** *** The batch *)

Inductive BatchValue : Type :=
| BTensor (t : Tensor)
| BTokens (tokens : list (list Z)).

Definition batch_tensor (batch : gmap string BatchValue) (key : string) : Res Tensor :=
  match batch !! key with
  | Some (BTensor t) => Ok t
  | Some (BTokens _) => Raise TypeError
  | None => Raise (KeyError key)
  end.

Definition batch_tokens (batch : gmap string BatchValue) (key : string)
  : Res (list (list Z)) :=
  match batch !! key with
  | Some (BTokens t) => Ok t
  | Some (BTensor _) => Raise TypeError
  | None => Raise (KeyError key)
  end.

(** *** [create_parameters] and [setup_model] *)

Definition create_parameters (model : StableDiffusionModel) (args : TrainArgs)
  : list NNParameter :=
  if train_text_encoder args
  then te_parameters (text_encoder model) ++ unet_parameters (unet model)
  else unet_parameters (unet model).

(** Modelled from the spec: [create.create_optimizer] is not among the
    sources; it constructs an optimizer over the given parameters. *)
Definition create_optimizer (ps : list NNParameter) (args : TrainArgs) : Optimizer :=
  {| opt_parameters := map param_name ps; opt_state := None |}.

Definition load_state_dict (o : Optimizer) (sd : string) : Optimizer :=
  {| opt_parameters := opt_parameters o; opt_state := Some sd |}.

(** The three [requires_grad_] calls that open [setup_model]. *)
Definition setup_requires_grad (model : StableDiffusionModel) (args : TrainArgs)
  : StableDiffusionModel :=
  let train_text_encoder :=
    train_text_encoder args
    && (epoch (train_progress model) <? train_text_encoder_epochs args) in
  {| noise_scheduler := noise_scheduler model;
     text_encoder :=
       {| te_parameters := requires_grad_ train_text_encoder (te_parameters (text_encoder model));
          te_forward := te_forward (text_encoder model) |};
     vae :=
       {| vae_parameters := requires_grad_ false (vae_parameters (vae model));
          scaling_factor := scaling_factor (vae model);
          vae_decode := vae_decode (vae model) |};
     unet :=
       {| unet_parameters := requires_grad_ true (unet_parameters (unet model));
          unet_forward := unet_forward (unet model) |};
     optimizer := optimizer model;
     optimizer_state_dict := optimizer_state_dict model;
     train_progress := train_progress model |}.

Definition set_optimizer (model : StableDiffusionModel) (o : Optimizer)
  (sd : attr (option string)) : StableDiffusionModel :=
  {| noise_scheduler := noise_scheduler model;
     text_encoder := text_encoder model;
     vae := vae model;
     unet := unet model;
     optimizer := Some o;
     optimizer_state_dict := sd;
     train_progress := train_progress model |}.

(** [setup_model] mutates the model it is given: the result is the model
    as the call leaves it, with the way the call ended.  Reading
    [model.optimizer_state_dict] after an earlier call has deleted the
    attribute raises. *)
Definition setup_model (model : StableDiffusionModel) (args : TrainArgs)
  : StableDiffusionModel * Res unit :=
  let model := setup_requires_grad model args in
  match optimizer_state_dict model with
  | Absent => (model, Raise AttributeError)
  | Value (Some sd) =>
      match optimizer model with
      | None =>
          let o := create_optimizer (create_parameters model args) args in
          (set_optimizer model (load_state_dict o sd) Absent, Ok tt)
      | Some _ => (model, Ok tt)
      end
  | Value None =>
      match optimizer model with
      | None =>
          let o := create_optimizer (create_parameters model args) args in
          (set_optimizer model o (Value None), Ok tt)
      | Some _ => (model, Ok tt)
      end
  end.

(** *** [predict] *)

(** The local variables of [predict] at the end of its main path (the
    statements before [if args.debug_mode]). *)
Record Locals : Type := mkLocals {
  latent_image : Tensor;
  scaled_latent_image : Tensor;
  latent_conditioning_image : option Tensor;
  scaled_latent_conditioning_image : option Tensor;
  generator : nat;
  latent_noise : Tensor;
  timestep : list Z;
  scaled_noisy_latent_image : Tensor;
  text_encoder_output : Tensor;
  latent_input : Tensor;
  predicted_latent_noise : Tensor
}.

(** The noise of the step: the statements of [if args.offset_noise_weight > 0]. *)
Definition draw_latent_noise (args : TrainArgs) (scaled_latent_image : Tensor)
  (generator : nat) : M Tensor :=
  if gt0 (offset_noise_weight args) then
    do normal_noise <- torch_randn (shape scaled_latent_image) generator (train_dtype args);
    do d0 <- lift (shape_at scaled_latent_image 0);
    do d1 <- lift (shape_at scaled_latent_image 1);
    do offset_noise <- torch_randn [d0; d1; 1%nat; 1%nat] generator (train_dtype args);
    lift (add_t normal_noise (scalar_mul (offset_noise_weight args) offset_noise))
  else
    torch_randn (shape scaled_latent_image) generator (train_dtype args).

(** The timesteps of the step: the [torch.randint] call. *)
Definition draw_timestep (model : StableDiffusionModel) (args : TrainArgs)
  (scaled_latent_image : Tensor) : M (list Z) :=
  let high :=
    py_int (fmul (of_Z (num_train_timesteps (noise_scheduler model)))
                 (max_noising_strength args)) in
  do d0 <- lift (shape_at scaled_latent_image 0);
  torch_randint 0 high d0.

(** The input of the denoising network. *)
Definition assemble_latent_input (args : TrainArgs) (batch : gmap string BatchValue)
  (scaled_noisy_latent_image : Tensor)
  (scaled_latent_conditioning_image : option Tensor) : Res Tensor :=
  if has_mask_input (model_type args) && has_conditioning_image_input (model_type args)
  then
    res_bind (batch_tensor batch "latent_mask") (fun latent_mask =>
    match scaled_latent_conditioning_image with
    | Some c => concat [scaled_noisy_latent_image; latent_mask; c] 1
    | None => Raise TypeError
    end)
  else Ok scaled_noisy_latent_image.

Definition predict_forward (model : StableDiffusionModel)
  (batch : gmap string BatchValue) (args : TrainArgs)
  (train_progress : TrainProgress) : M Locals :=
  do latent_image <- lift (batch_tensor batch "latent_image");
  let scaled_latent_image := mul_scalar latent_image (scaling_factor (vae model)) in
  do conditioning <-
    (if has_conditioning_image_input (model_type args) then
       do c <- lift (batch_tensor batch "latent_conditioning_image");
       ret (Some c, Some (mul_scalar c (scaling_factor (vae model))))
     else ret (None, None));
  do generator <- torch_Generator (train_device args);
  exec generator_manual_seed generator (global_step train_progress);
  do latent_noise <- draw_latent_noise args scaled_latent_image generator;
  do timestep <- draw_timestep model args scaled_latent_image;
  let scaled_noisy_latent_image :=
    add_noise (noise_scheduler model) scaled_latent_image latent_noise timestep in
  do tokens <- lift (batch_tokens batch "tokens");
  let text_encoder_output := te_forward (text_encoder model) tokens in
  do latent_input <-
    lift (assemble_latent_input args batch scaled_noisy_latent_image (snd conditioning));
  do predicted_latent_noise <-
    (if has_depth_input (model_type args) then
       do latent_depth <- lift (batch_tensor batch "latent_depth");
       ret (unet_forward (unet model) latent_input timestep text_encoder_output
              (Some latent_depth))
     else
       ret (unet_forward (unet model) latent_input timestep text_encoder_output None));
  ret {| latent_image := latent_image;
         scaled_latent_image := scaled_latent_image;
         latent_conditioning_image := fst conditioning;
         scaled_latent_conditioning_image := snd conditioning;
         generator := generator;
         latent_noise := latent_noise;
         timestep := timestep;
         scaled_noisy_latent_image := scaled_noisy_latent_image;
         text_encoder_output := text_encoder_output;
         latent_input := latent_input;
         predicted_latent_noise := predicted_latent_noise |}.

(** The body of [if args.debug_mode]. *)
Definition predict_debug (model : StableDiffusionModel) (args : TrainArgs)
  (train_progress : TrainProgress) (l : Locals) : M unit :=
  let sf := scaling_factor (vae model) in
  let decode := vae_decode (vae model) in
  let dir := (debug_dir args +:+ "/training_batches")%string in
  (* noise *)
  let noise := clamp (decode (div_scalar (latent_noise l) sf)) (-1) 1 in
  exec save_image noise dir "1-noise" (global_step train_progress);
  (* predicted noise *)
  let predicted_noise := clamp (decode (div_scalar (predicted_latent_noise l) sf)) (-1) 1 in
  exec save_image predicted_noise dir "2-predicted_noise" (global_step train_progress);
  (* noisy image *)
  let noisy_latent_image := div_scalar (scaled_noisy_latent_image l) sf in
  let noisy_image := clamp (decode noisy_latent_image) (-1) 1 in
  exec save_image noisy_image dir "3-noisy_image" (global_step train_progress);
  (* predicted image *)
  do alphas <- lift (index_by (alphas_cumprod (noise_scheduler model)) (timestep l));
  let sqrt_alpha_prod := reshape_m1_1_1_1 (flatten (sqrt_t alphas)) in
  do alphas' <- lift (index_by (alphas_cumprod (noise_scheduler model)) (timestep l));
  let sqrt_one_minus_alpha_prod :=
    reshape_m1_1_1_1 (flatten (sqrt_t (scalar_sub (of_Z 1) alphas'))) in
  do weighted <- lift (mul_t (predicted_latent_noise l) sqrt_one_minus_alpha_prod);
  do difference <- lift (sub_t (scaled_noisy_latent_image l) weighted);
  do scaled_predicted_latent_image <- lift (div_t difference sqrt_alpha_prod);
  let predicted_latent_image := div_scalar scaled_predicted_latent_image sf in
  let predicted_image := clamp (decode predicted_latent_image) (-1) 1 in
  exec save_image predicted_image dir "4-predicted_image"
    (global_step (StableDiffusionModel.train_progress model));
  (* image *)
  let image := clamp (decode (latent_image l)) (-1) 1 in
  exec save_image image dir "5-image"
    (global_step (StableDiffusionModel.train_progress model));
  (* conditioning image *)
  if has_conditioning_image_input (model_type args) then
    match latent_conditioning_image l with
    | Some c =>
        let conditioning_image := clamp (decode c) (-1) 1 in
        save_image conditioning_image dir "6-conditioning_image" (global_step train_progress)
    | None => lift (Raise TypeError)
    end
  else ret tt.

Definition predict (model : StableDiffusionModel) (batch : gmap string BatchValue)
  (args : TrainArgs) (train_progress : TrainProgress) : M (Tensor * Tensor) :=
  do l <- predict_forward model batch args train_progress;
  exec (if debug_mode args then predict_debug model args train_progress l else ret tt);
  ret (predicted_latent_noise l, latent_noise l).


(** *** Auxiliary definitions for the statements about [predict] *)

(** The world in which the noise of a step is drawn: the seeded generator
    is the last one created. *)
Definition seeded_world (args : TrainArgs) (train_progress : TrainProgress)
  (w : World) : World :=
  mkWorld (default_generator w)
          (generators w
           ++ [manual_seed (global_step train_progress) (new_generator (train_device args))])
          (saved_images w).

(** The depth argument of the denoising network. *)
Definition depth_input (args : TrainArgs) (batch : gmap string BatchValue)
  : Res (option Tensor) :=
  if has_depth_input (model_type args)
  then res_bind (batch_tensor batch "latent_depth") (fun d => Ok (Some d))
  else Ok None.

(** The two draws of the offset-noise branch, from the generator state
    [g]: the full-shape noise first, the per-channel offset next. *)
Definition normal_noise_of (args : TrainArgs) (s : list nat) (g : Generator) : Tensor :=
  fst (randn_from s (train_dtype args) g).

Definition offset_noise_of (args : TrainArgs) (N C : nat) (s : list nat) (g : Generator)
  : Tensor :=
  fst (randn_from [N; C; 1%nat; 1%nat] (train_dtype args)
         (snd (randn_from s (train_dtype args) g))).

(** The upper end of the range of timesteps, as [predict] computes it. *)
Definition timestep_high (model : StableDiffusionModel) (args : TrainArgs) : Z :=
  py_int (fmul (of_Z (num_train_timesteps (noise_scheduler model)))
               (max_noising_strength args)).

(** The number of inspection images of a step. *)
Definition debug_image_count (args : TrainArgs) : nat :=
  if has_conditioning_image_input (model_type args) then 6%nat else 5%nat.

(** [args] with its [debug_mode] replaced. *)
Definition set_debug_mode (b : bool) (args : TrainArgs) : TrainArgs :=
  {| training_method := training_method args;
     model_type := model_type args;
     train_device := train_device args;
     train_dtype := train_dtype args;
     train_text_encoder := train_text_encoder args;
     train_text_encoder_epochs := train_text_encoder_epochs args;
     offset_noise_weight := offset_noise_weight args;
     max_noising_strength := max_noising_strength args;
     debug_mode := b;
     debug_dir := debug_dir args;
     masked_training := masked_training args;
     random_rotate_and_crop := random_rotate_and_crop args;
     aspect_ratio_bucketing := aspect_ratio_bucketing args;
     latent_caching := latent_caching args;
     latent_caching_epochs := latent_caching_epochs args;
     cache_dir := cache_dir args;
     batch_size := batch_size args;
     resolution := resolution args;
     backup_before_save := backup_before_save args |}.

End Setup.
End StableDiffusionFineTuneSetup.

(** ** [scripts/train.py] *)

Module Train.
Import Torch.

Section Main.
Context `{Float}.

(** The trainer is built by [modules/trainer/FineTuneTrainer.py], which is
    not among the sources: a run of [main] is described by how each of the
    three calls [main] makes on it ends. *)
Record FineTuneTrainer : Type := mkTrainer {
  start : Res unit;
  train : Res unit;
  end_ : Res unit
}.

Inductive Call : Type :=
| CallStart
| CallTrain
| CallEnd.

Global Instance Call_eq_dec : EqDecision Call.
Proof. solve_decision. Defined.

(** [main] returns the calls it made on the trainer, in order, and the
    way it ended. *)
Definition main (args : TrainArgs) (new_trainer : TrainArgs -> FineTuneTrainer)
  : list Call * Res unit :=
  let trainer :=
    match training_method args with
    | FINE_TUNE => Some (new_trainer args)
    | LORA => Some (new_trainer args)
    | EMBEDDING => Some (new_trainer args)
    | FINE_TUNE_VAE => Some (new_trainer args)
    end in
  match trainer with
  | None => ([], Raise AttributeError)
  | Some trainer =>
      match start trainer with
      | Raise e => ([CallStart], Raise e)
      | Ok _ =>
          let canceled_or_error :=
            match train trainer with
            | Ok _ => Ok false
            | Raise KeyboardInterrupt => Ok true
            | Raise e => Raise e
            end in
          match canceled_or_error with
          | Raise e => ([CallStart; CallTrain], Raise e)
          | Ok canceled =>
              if negb canceled || backup_before_save args
              then ([CallStart; CallTrain; CallEnd], end_ trainer)
              else ([CallStart; CallTrain], Ok tt)
          end
      end
  end.

End Main.
End Train.

(** ** Python's [os.path.splitext] and [str.endswith] *)

Module Path.

Open Scope nat_scope.

Fixpoint rfind_from (c : ascii) (l : list ascii) (i : nat) (last : option nat)
  : option nat :=
  match l with
  | [] => last
  | x :: l' =>
      rfind_from c l' (S i) (if Ascii.eqb x c then Some i else last)
  end.

(** [p.rfind(c)], [None] for -1. *)
Definition rfind (c : ascii) (p : string) : option nat :=
  rfind_from c (list_ascii_of_string p) 0 None.

(** The first index of the file name: one past the last separator. *)
Definition filename_index (p : string) : nat :=
  match rfind "/" p with
  | Some i => S i
  | None => 0
  end.

(** [os.path.splitext(p)]: the extension starts at the last dot of the
    last component, unless only dots precede it there. *)
Definition splitext (p : string) : string * string :=
  match rfind "." p with
  | Some dotIndex =>
      if (filename_index p <=? dotIndex)
         && existsb (fun c => negb (Ascii.eqb c "."))
              (list_ascii_of_string
                 (String.substring (filename_index p) (dotIndex - filename_index p) p))
      then (String.substring 0 dotIndex p,
            String.substring dotIndex (String.length p - dotIndex) p)
      else (p, EmptyString)
  | None => (p, EmptyString)
  end.

(** [s.endswith(postfix)] *)
Definition endswith (s postfix : string) : bool :=
  (String.length postfix <=? String.length s)
  && String.eqb
       (String.substring (String.length s - String.length postfix)
          (String.length postfix) s)
       postfix.

End Path.

(** ** The mgds pipeline modules the data loader instantiates *)

Module Mgds.
Import Torch StableDiffusionModel.

Section Modules.
Context `{Rng}.

(** A pipeline module with the arguments it is constructed with. *)
Inductive PipelineModule : Type :=
| CollectPaths (concept_in_name path_in_name name_in_name path_out_name
                concept_out_name : string) (extensions : list string)
               (include_postfix exclude_postfix : option (list string))
| ModifyPath (in_name out_name postfix : string) (extension : option string)
| LoadImage (path_in_name image_out_name : string) (range_min range_max : Z)
            (channels : option Z)
| RandomMaskRotateCrop (mask_name : string) (additional_names : list string)
                       (min_size min_padding_percent max_padding_percent
                        max_rotate_angle : Z)
| CalcAspect (image_in_name resolution_out_name : string)
| AspectBucketing (batch_size target_resolution : Z)
                  (resolution_in_name scale_resolution_out_name
                   crop_resolution_out_name possible_resolutions_out_name : string)
| ScaleCropImage (image_in_name scale_resolution_in_name crop_resolution_in_name
                  image_out_name : string)
| RandomFlip (names : list string)
| EncodeVAE (in_name out_name : string) (vae : AutoencoderKL)
| Downscale (in_name out_name : string)
| DiskCache (cache_dir : string) (split_names aggregate_names : list string)
            (cached_epochs : Z)
| SampleVAEDistribution (in_name out_name mode : string)
| AspectBatchSorting (resolution_in_name : string) (names : list string)
                     (batch_size : Z) (sort_resolutions_for_each_epoch : bool)
| OutputPipelineModule (names : list string)
| DecodeVAE (in_name out_name : string) (vae : AutoencoderKL)
| SaveImage (image_in_name original_path_in_name path : string)
            (in_range_min in_range_max : Z).

(** The latent distribution a VAE encoder returns (diffusers'
    [DiagonalGaussianDistribution]). *)
Record DiagonalGaussianDistribution : Type := mkDistribution {
  mean : Tensor;
  std : Tensor;
  dtype : string
}.

(** The value of a field of a sample record. *)
Inductive FieldValue : Type :=
| VPath (p : string)
| VTensor (t : Tensor)
| VDistribution (d : DiagonalGaussianDistribution).

(** Modelled from the spec: mgds is not among the sources.
    [CollectPaths] "collects all files with configured image extensions
    under its path, excluding any path matching a mask-suffix pattern
    (e.g. files ending -masklabel)": a file name is kept when its
    extension is listed, when it has one of the postfixes to include (if
    any are given) and none of the postfixes to exclude. *)
Definition has_postfix (postfixes : list string) (name : string) : bool :=
  existsb (Path.endswith (fst (Path.splitext name))) postfixes.

Definition collects (m : PipelineModule) (name : string) : bool :=
  match m with
  | CollectPaths _ _ _ _ _ extensions include_postfix exclude_postfix =>
      existsb (String.eqb (snd (Path.splitext name))) extensions
      && match include_postfix with
         | Some ps => has_postfix ps name
         | None => true
         end
      && match exclude_postfix with
         | Some ps => negb (has_postfix ps name)
         | None => true
         end
  | _ => false
  end.

(** Modelled from the spec: [ModifyPath] "derives each image's mask path
    by substituting the image's extension with a fixed masklabel suffix
    and extension", writing it to its output field. *)
Definition modify_path (postfix : string) (extension : option string) (p : string)
  : string :=
  (fst (Path.splitext p) +:+ postfix
   +:+ match extension with
       | Some e => e
       | None => snd (Path.splitext p)
       end)%string.

(** Modelled from the spec: [SampleVAEDistribution] "converts the cached
    latent distribution into one concrete latent tensor by taking either
    its mean or a reparameterized random draw, depending on configured
    mode".  The draw is [mean + std * eps] with [eps] standard normal,
    taken from the generator [g]. *)
Definition sample_distribution (mode : string) (d : DiagonalGaussianDistribution)
  (g : Generator) : Res (Tensor * Generator) :=
  if String.eqb mode "sample" then
    let '(eps, g') := randn_from (shape (mean d)) (dtype d) g in
    res_bind (mul_t (std d) eps) (fun scaled =>
    res_bind (add_t (mean d) scaled) (fun x => Ok (x, g')))
  else if String.eqb mode "mean" then Ok (mean d, g)
  else Raise ValueError.


Definition sample_distribution_item (in_name out_name mode : string)
  (record : gmap string FieldValue) (g : Generator)
  : Res (gmap string FieldValue * Generator) :=
  match record !! in_name with
  | Some (VDistribution d) =>
      res_bind (sample_distribution mode d g) (fun r =>
      Ok (<[out_name := VTensor (fst r)]> record, snd r))
  | Some _ => Raise TypeError
  | None => Raise (KeyError in_name)
  end.

(** The modes of the distribution-sampling modules of a list of modules. *)
Fixpoint sampling_modes (ms : list PipelineModule) : list string :=
  match ms with
  | [] => []
  | SampleVAEDistribution _ _ mode :: ms' => mode :: sampling_modes ms'
  | _ :: ms' => sampling_modes ms'
  end.

(** The arguments of the [MGDS] constructor. *)
Record MGDS : Type := mkMGDS {
  device : string;
  ds_dtype : string;
  allow_mixed_precision : bool;
  concepts : list (gmap string string);
  settings : gmap string string;
  definition : list (option (list PipelineModule));
  ds_batch_size : Z;
  initial_epoch : Z;
  initial_epoch_sample : Z
}.

(** The modules of a pipeline, in stage order. *)
Definition flatten_stages (stages : list (option (list PipelineModule)))
  : list PipelineModule :=
  List.concat (map (fun s => default [] s) stages).

End Modules.
End Mgds.

(** ** [modules/dataLoader/MgdsStableDiffusionVaeFineTuneVaeDataLoader.py] *)

Module MgdsStableDiffusionFineTuneVaeDataLoader.
Import Torch StableDiffusionModel Mgds.

Section DataLoader.
Context `{Rng}.

Definition supported_extensions : list string :=
  [".bmp"; ".jpg"; ".jpeg"; ".png"; ".tif"; ".tiff"; ".webp"]%string.

Definition collect_paths : PipelineModule :=
  CollectPaths "concept" "path" "name" "image_path" "concept"
    supported_extensions None (Some ["-masklabel"%string]).

Definition mask_path : PipelineModule :=
  ModifyPath "image_path" "mask_path" "-masklabel" (Some ".png"%string).

Definition __enumerate_input_modules (args : TrainArgs) : list PipelineModule :=
  let modules := [collect_paths] in
  if masked_training args then modules ++ [mask_path] else modules.

Definition __load_input_modules (args : TrainArgs) : list PipelineModule :=
  let load_image := LoadImage "image_path" "image" (-1) 1 None in
  let load_mask := LoadImage "mask_path" "mask" 0 1 (Some 1) in
  let modules := [load_image] in
  if masked_training args then modules ++ [load_mask] else modules.

Definition __mask_augmentation_modules (args : TrainArgs) : list PipelineModule :=
  let inputs := ["image"%string] in
  let random_mask_rotate_crop :=
    RandomMaskRotateCrop "mask" inputs (resolution args) 10 30 20 in
  let modules := [] in
  if masked_training args && random_rotate_and_crop args
  then modules ++ [random_mask_rotate_crop] else modules.

Definition __aspect_bucketing_in (args : TrainArgs) : list PipelineModule :=
  let calc_aspect := CalcAspect "image" "original_resolution" in
  let aspect_bucketing :=
    AspectBucketing (batch_size args) (resolution args) "original_resolution"
      "scale_resolution" "crop_resolution" "possible_resolutions" in
  let modules := [] in
  if aspect_ratio_bucketing args
  then (modules ++ [calc_aspect]) ++ [aspect_bucketing] else modules.

Definition __crop_modules (args : TrainArgs) : list PipelineModule :=
  let scale_crop_image :=
    ScaleCropImage "image" "scale_resolution" "crop_resolution" "image" in
  let scale_crop_mask :=
    ScaleCropImage "mask" "scale_resolution" "crop_resolution" "mask" in
  let modules := [scale_crop_image] in
  if masked_training args then modules ++ [scale_crop_mask] else modules.

Definition __augmentation_modules (args : TrainArgs) : list PipelineModule :=
  let inputs := ["image"%string] in
  let inputs := if masked_training args then inputs ++ ["mask"%string] else inputs in
  let random_flip := RandomFlip inputs in
  [random_flip].

Definition __preparation_modules (args : TrainArgs) (model : StableDiffusionModel)
  : list PipelineModule :=
  let image := EncodeVAE "image" "latent_image_distribution" (vae model) in
  let mask := Downscale "mask" "latent_mask" in
  let modules := [image] in
  if masked_training args then modules ++ [mask] else modules.

Definition __cache_modules (args : TrainArgs) : list PipelineModule :=
  let split_names := ["image"; "latent_image_distribution"]%string in
  let split_names :=
    if masked_training args then split_names ++ ["latent_mask"%string]
    else split_names in
  let aggregate_names := ["crop_resolution"; "image_path"]%string in
  let disk_cache :=
    DiskCache (cache_dir args) split_names aggregate_names
      (latent_caching_epochs args) in
  let modules := [] in
  if latent_caching args then modules ++ [disk_cache] else modules.

(** The first module of the output stage. *)
Definition image_sample : PipelineModule :=
  SampleVAEDistribution "latent_image_distribution" "latent_image" "mean".

Definition __output_modules (args : TrainArgs) : list PipelineModule :=
  let output_names := ["image"; "latent_image"; "image_path"]%string in
  let output_names :=
    if masked_training args then output_names ++ ["latent_mask"%string]
    else output_names in
  let batch_sorting :=
    AspectBatchSorting "crop_resolution" output_names (batch_size args) true in
  let output := OutputPipelineModule output_names in
  [image_sample; batch_sorting; output].

(** [os.path.join(a, b)] *)
Definition os_path_join (a b : string) : string :=
  if String.prefix "/" b then b
  else if (String.length a =? 0)%nat || Path.endswith a "/" then (a +:+ b)%string
  else (a +:+ "/" +:+ b)%string.

Definition create_dataset (args : TrainArgs) (model : StableDiffusionModel)
  (concepts : list (gmap string string)) (train_progress : TrainProgress) : MGDS :=
  let enumerate_input := __enumerate_input_modules args in
  let load_input := __load_input_modules args in
  let mask_augmentation := __mask_augmentation_modules args in
  let aspect_bucketing_in := __aspect_bucketing_in args in
  let crop_modules := __crop_modules args in
  let augmentation_modules := __augmentation_modules args in
  let preparation_modules := __preparation_modules args model in
  let cache_modules := __cache_modules args in
  let output_modules := __output_modules args in
  let debug_dir := os_path_join (debug_dir args) "dataloader" in
  let debug_modules :=
    [DecodeVAE "latent_image" "decoded_image" (vae model);
     SaveImage "decoded_image" "image_path" debug_dir (-1) 1;
     SaveImage "mask" "image_path" debug_dir 0 1] in
  {| device := train_device args;
     ds_dtype := train_dtype args;
     allow_mixed_precision := negb (String.eqb (train_dtype args) "float32");
     concepts := concepts;
     settings := ∅;
     definition :=
       [Some enumerate_input;
        Some load_input;
        Some mask_augmentation;
        Some aspect_bucketing_in;
        Some crop_modules;
        Some augmentation_modules;
        Some preparation_modules;
        Some cache_modules;
        Some output_modules;
        if debug_mode args then Some debug_modules else None];
     ds_batch_size := batch_size args;
     initial_epoch := epoch train_progress;
     initial_epoch_sample := epoch_sample train_progress |}.

End DataLoader.
End MgdsStableDiffusionFineTuneVaeDataLoader.

(** ** [modules/modelSampler/SanaSampler.py] *)

Module SanaSampler.

(** Python's [round] of a rational: to the nearest integer, ties to the
    even one. *)
Definition py_round (q : Q) : Z :=
  let f := Qfloor q in
  match Qcompare (q - inject_Z f) (1 # 2) with
  | Lt => f
  | Gt => f + 1
  | Eq => if Z.even f then f else f + 1
  end.

(** Modelled from the spec: [BaseModelSampler.quantize_resolution] is not
    among the sources; it quantizes a resolution to a multiple of the
    given step.  It is taken to round the quotient to the nearest integer,
    [round(resolution / quantization) * quantization]. *)
Definition quantize_resolution (resolution quantization : Z) : Z :=
  py_round (inject_Z resolution / inject_Z quantization) * quantization.

(** The fields of [SampleConfig] that [sample] reads. *)
Record SampleConfig : Type := mkSampleConfig {
  prompt : string;
  negative_prompt : string;
  height : Z;
  width : Z;
  seed : Z;
  random_seed : bool;
  diffusion_steps : Z;
  cfg_scale : Q;
  noise_scheduler : string;
  text_encoder_1_layer_skip : Z;
  force_last_timestep : bool
}.

(** The arguments [sample] calls [__sample_base] with. *)
Record SampleBaseCall : Type := mkSampleBaseCall {
  sb_prompt : string;
  sb_negative_prompt : string;
  sb_height : Z;
  sb_width : Z;
  sb_seed : Z;
  sb_random_seed : bool;
  sb_diffusion_steps : Z;
  sb_cfg_scale : Q;
  sb_noise_scheduler : string;
  sb_cfg_rescale : Q;
  sb_text_encoder_layer_skip : Z;
  sb_force_last_timestep : bool
}.

Definition sample_call (add_embeddings_to_prompt : string -> string)
  (sample_config : SampleConfig) : SampleBaseCall :=
  let prompt := add_embeddings_to_prompt (prompt sample_config) in
  let negative_prompt := add_embeddings_to_prompt (negative_prompt sample_config) in
  {| sb_prompt := prompt;
     sb_negative_prompt := negative_prompt;
     sb_height := quantize_resolution (height sample_config) 32;
     sb_width := quantize_resolution (width sample_config) 32;
     sb_seed := seed sample_config;
     sb_random_seed := random_seed sample_config;
     sb_diffusion_steps := diffusion_steps sample_config;
     sb_cfg_scale := cfg_scale sample_config;
     sb_noise_scheduler := noise_scheduler sample_config;
     sb_cfg_rescale := if force_last_timestep sample_config then 7 # 10 else 0;
     sb_text_encoder_layer_skip := text_encoder_1_layer_skip sample_config;
     sb_force_last_timestep := force_last_timestep sample_config |}.




End SanaSampler.

(** ** Concrete instances, used to run the definitions *)

Module Instances.
Import Torch StableDiffusionModel Mgds.

(** Exact rational arithmetic; the square root is rounded down to a
    multiple of the reciprocal of the denominator. *)
Definition QFloat : Float :=
  {| F := Q;
     F2Q := fun x => x;
     of_Z := inject_Z;
     fadd := Qplus;
     fsub := Qminus;
     fmul := Qmult;
     fdiv := Qdiv;
     fsqrt := fun x => Z.sqrt (Qnum x * Zpos (Qden x)) # Qden x |}.

(** A linear congruential generator on 64 bits: the state is the next
    raw draw.  It stands for the generators of PyTorch, of which the
    program only uses that a generator is a state advanced by each draw. *)
Definition lcg_next (g : Z) : Z * Z :=
  (g, (6364136223846793005 * g + 1442695040888963407) mod 2 ^ 64).

Definition LcgRng : @Rng QFloat :=
  @Build_Rng QFloat Z
    (fun _ => 67280421310721)
    (fun seed _ => seed mod 2 ^ 64)
    lcg_next
    (fun _ z => (z mod 2001 - 1000) # 1000).

(** Two configurations that differ in every switch. *)
Definition args_plain : @TrainArgs QFloat :=
  @mkTrainArgs QFloat FINE_TUNE (mkModelType false false false) "cuda" "float32"
    false 0 0%Q 1%Q false "debug" false false false false 1 "cache" 1 512 false.

Definition args_masked : @TrainArgs QFloat :=
  @mkTrainArgs QFloat FINE_TUNE_VAE (mkModelType true true false) "cpu" "float16"
    true 30 (1 # 10)%Q (3 # 4)%Q true "dbg" true true true true 4 "latents" 8 768 true.

(** A constant tensor. *)
Definition full (s : list nat) (x : Q) : @Tensor QFloat :=
  @mkTensor QFloat s (fun _ => x).

Definition unit_normal : @DiagonalGaussianDistribution QFloat :=
  @mkDistribution QFloat (full [4; 2; 2]%nat 0%Q) (full [4; 2; 2]%nat 1%Q) "float32".


(** A model, a batch and a world to run [predict] on.  The latent has
    shape [1; 2; 2; 2]; the networks are small stand-ins that return
    tensors of the shapes the real ones do. *)
Definition example_latent : @Tensor QFloat :=
  @mkTensor QFloat [1; 2; 2; 2]%nat
    (fun idx => inject_Z (Z.of_nat (@ravel [1; 2; 2; 2]%nat idx 0%nat))).

Definition example_scheduler : @DDPMScheduler QFloat :=
  @mkScheduler QFloat 1000
    (fun x n ts =>
       @mkTensor QFloat (@shape QFloat x)
         (fun idx => (@item QFloat x idx + @item QFloat n idx)%Q))
    (@mkTensor QFloat [1000%nat]
       (fun idx => (1000 - Z.of_nat (hd 0%nat idx)) # 1000)).

Definition example_model : @StableDiffusionModel QFloat :=
  @mkModel QFloat
    example_scheduler
    (@mkTextEncoder QFloat
       [mkNNParameter "text_model.embeddings" true]
       (fun tokens => full [length tokens; 1%nat] 0%Q))
    (@mkVae QFloat
       [mkNNParameter "decoder.conv_in" true]
       (18215 # 100000)%Q
       (fun t => t))
    (@mkUnet QFloat
       [mkNNParameter "conv_in" false; mkNNParameter "conv_out" false]
       (fun x ts e d =>
          @mkTensor QFloat [1; 2; 2; 2]%nat
            (fun idx => (@item QFloat x idx + inject_Z (hd 0%Z ts))%Q)))
    None
    (Value None)
    (mkTrainProgress 3 0 120).

Definition example_batch : gmap string (@StableDiffusionFineTuneSetup.BatchValue QFloat) :=
  <["latent_image"%string := StableDiffusionFineTuneSetup.BTensor example_latent]>
  (<["latent_mask"%string :=
       StableDiffusionFineTuneSetup.BTensor (full [1; 1; 2; 2]%nat 1%Q)]>
  (<["latent_conditioning_image"%string :=
       StableDiffusionFineTuneSetup.BTensor (full [1; 2; 2; 2]%nat (1 # 2)%Q)]>
  (<["tokens"%string := StableDiffusionFineTuneSetup.BTokens [[49406; 320; 49407]]]> ∅))).

Definition example_progress : TrainProgress := mkTrainProgress 3 40 120.

Definition example_world : @StableDiffusionFineTuneSetup.World QFloat LcgRng :=
  @StableDiffusionFineTuneSetup.mkWorld QFloat LcgRng 2024 [] [].

(** The main path of [predict] on the example, from a given world. *)
Definition example_run (w : @StableDiffusionFineTuneSetup.World QFloat LcgRng) :=
  @StableDiffusionFineTuneSetup.predict_forward QFloat LcgRng example_model
    example_batch args_masked example_progress w.

End Instances.


(** ** [StableDiffusionFineTuneSetup]: the remaining methods *)

Module StableDiffusionFineTuneSetupMethods.
Import Torch StableDiffusionModel.

Section Methods.
Context `{Float}.

(** The method [create_optimizer]: the optimizer [setup_model] left on
    the model, [None] when there is none. *)
Definition create_optimizer (model : StableDiffusionModel) (args : TrainArgs)
  : option Optimizer :=
  optimizer model.

Definition get_train_progress (model : StableDiffusionModel) (args : TrainArgs)
  : TrainProgress :=
  train_progress model.

(** The setup object: [self.train_device], [self.temp_device],
    [self.debug_mode]. *)
Record Setup : Type := mkSetup {
  self_train_device : string;
  self_temp_device : string;
  self_debug_mode : bool
}.

(** What the device-setup methods change on a network: where it lives,
    its mode, and the two memory options. *)
Record ModuleState : Type := mkModuleState {
  device : string;
  training : bool;
  xformers : bool;
  gradient_checkpointing : bool
}.

Definition to (d : string) (m : ModuleState) : ModuleState :=
  {| device := d; training := training m; xformers := xformers m;
     gradient_checkpointing := gradient_checkpointing m |}.

Definition set_training (b : bool) (m : ModuleState) : ModuleState :=
  {| device := device m; training := b; xformers := xformers m;
     gradient_checkpointing := gradient_checkpointing m |}.

Definition set_xformers (m : ModuleState) : ModuleState :=
  {| device := device m; training := training m; xformers := true;
     gradient_checkpointing := gradient_checkpointing m |}.

Definition set_gradient_checkpointing (m : ModuleState) : ModuleState :=
  {| device := device m; training := training m; xformers := xformers m;
     gradient_checkpointing := true |}.

(** The networks of a model; [depth_estimator] may be [None]. *)
Record Networks : Type := mkNetworks {
  n_text_encoder : ModuleState;
  n_vae : ModuleState;
  n_unet : ModuleState;
  n_depth_estimator : option ModuleState
}.

Definition setup_eval_device (self : Setup) (model : Networks) : Networks :=
  let text_encoder := to (self_train_device self) (n_text_encoder model) in
  let vae := to (self_train_device self) (n_vae model) in
  let unet := to (self_train_device self) (n_unet model) in
  let depth_estimator :=
    match n_depth_estimator model with
    | Some d => Some (to (self_train_device self) d)
    | None => None
    end in
  {| n_text_encoder := set_training false text_encoder;
     n_vae := set_training false vae;
     n_unet := set_training false unet;
     n_depth_estimator := depth_estimator |}.

(** [except Exception] does not catch an interruption. *)
Definition is_Exception (e : exn) : bool :=
  match e with
  | KeyboardInterrupt => false
  | _ => true
  end.

(** The outcome of [setup_train_device]: the networks as the call leaves
    them, the exceptions it printed a message for, and the way it ended.
    [xformers_available] is the answer of [is_xformers_available()];
    [enable_vae] and [enable_unet] are the ways the two
    [enable_xformers_memory_efficient_attention()] calls end. *)
Definition setup_train_device (self : Setup) (model : Networks) (args : TrainArgs)
  (xformers_available : bool) (enable_vae enable_unet : Res unit)
  : Networks * list exn * Res unit :=
  let text_encoder := to (self_train_device self) (n_text_encoder model) in
  let vae :=
    to (if self_debug_mode self then self_train_device self else self_temp_device self)
       (n_vae model) in
  let unet := to (self_train_device self) (n_unet model) in
  let depth_estimator :=
    match n_depth_estimator model with
    | Some d => Some (to (self_temp_device self) d)
    | None => None
    end in
  (* the [try] block: the networks after it, and the exception it ended with *)
  let attempt :=
    if xformers_available then
      match enable_vae with
      | Ok _ =>
          match enable_unet with
          | Ok _ => (set_xformers vae, set_xformers unet, None)
          | Raise e => (set_xformers vae, unet, Some e)
          end
      | Raise e => (vae, unet, Some e)
      end
    else (vae, unet, None) in
  let '(vae, unet, raised) := attempt in
  let finish (printed : list exn) :=
    let unet := set_gradient_checkpointing unet in
    let text_encoder :=
      if train_text_encoder args then set_gradient_checkpointing text_encoder
      else text_encoder in
    ({| n_text_encoder := set_training true text_encoder;
        n_vae := set_training true vae;
        n_unet := set_training true unet;
        n_depth_estimator := depth_estimator |}, printed, Ok tt) in
  match raised with
  | None => finish []
  | Some e =>
      if is_Exception e then finish [e]
      else ({| n_text_encoder := text_encoder; n_vae := vae; n_unet := unet;
               n_depth_estimator := depth_estimator |}, [], Raise e)
  end.

End Methods.
End StableDiffusionFineTuneSetupMethods.

(** ** The inspection images of a step *)

Module DebugImages.
Import Torch StableDiffusionFineTuneSetup.

Section Labels.
Context `{Rng}.

(** The directory, name and step number of a stored image. *)
Definition image_label (i : SavedImage) : string * string * Z :=
  (si_directory i, si_name i, si_step i).

End Labels.
End DebugImages.

(** ** The fields the pipeline modules read and write *)

Module PipelineFields.
Import Torch StableDiffusionModel Mgds.

Section Fields.
Context `{Float}.

(** The fields a module is constructed to read: its [..._in_name]
    arguments and the names it transforms in place. *)
Definition reads (m : PipelineModule) : list string :=
  match m with
  | CollectPaths concept_in_name path_in_name name_in_name _ _ _ _ _ =>
      [concept_in_name; path_in_name; name_in_name]
  | ModifyPath in_name _ _ _ => [in_name]
  | LoadImage path_in_name _ _ _ _ => [path_in_name]
  | RandomMaskRotateCrop mask_name additional_names _ _ _ _ =>
      mask_name :: additional_names
  | CalcAspect image_in_name _ => [image_in_name]
  | AspectBucketing _ _ resolution_in_name _ _ _ => [resolution_in_name]
  | ScaleCropImage image_in_name scale_resolution_in_name crop_resolution_in_name _ =>
      [image_in_name; scale_resolution_in_name; crop_resolution_in_name]
  | RandomFlip names => names
  | EncodeVAE in_name _ _ => [in_name]
  | Downscale in_name _ => [in_name]
  | DiskCache _ split_names aggregate_names _ => split_names ++ aggregate_names
  | SampleVAEDistribution in_name _ _ => [in_name]
  | AspectBatchSorting resolution_in_name names _ _ => resolution_in_name :: names
  | OutputPipelineModule names => names
  | DecodeVAE in_name _ _ => [in_name]
  | SaveImage image_in_name original_path_in_name _ _ _ =>
      [image_in_name; original_path_in_name]
  end.

(** The fields a module is constructed to write: its [..._out_name]
    arguments and the names it transforms in place. *)
Definition writes (m : PipelineModule) : list string :=
  match m with
  | CollectPaths _ _ _ path_out_name concept_out_name _ _ _ =>
      [path_out_name; concept_out_name]
  | ModifyPath _ out_name _ _ => [out_name]
  | LoadImage _ image_out_name _ _ _ => [image_out_name]
  | RandomMaskRotateCrop mask_name additional_names _ _ _ _ =>
      mask_name :: additional_names
  | CalcAspect _ resolution_out_name => [resolution_out_name]
  | AspectBucketing _ _ _ scale_resolution_out_name crop_resolution_out_name
      possible_resolutions_out_name =>
      [scale_resolution_out_name; crop_resolution_out_name;
       possible_resolutions_out_name]
  | ScaleCropImage _ _ _ image_out_name => [image_out_name]
  | RandomFlip names => names
  | EncodeVAE _ out_name _ => [out_name]
  | Downscale _ out_name => [out_name]
  | DiskCache _ split_names aggregate_names _ => split_names ++ aggregate_names
  | SampleVAEDistribution _ out_name _ => [out_name]
  | AspectBatchSorting _ names _ _ => names
  | OutputPipelineModule _ => []
  | DecodeVAE _ out_name _ => [out_name]
  | SaveImage _ _ _ _ _ => []
  end.

Definition mem (f : string) (fs : list string) : bool := existsb (String.eqb f) fs.

(** The fields some module reads although neither the concepts nor a
    module before it provide them, in pipeline order. *)
Fixpoint dangling (available : list string) (ms : list PipelineModule) : list string :=
  match ms with
  | [] => []
  | m :: ms' =>
      filter (fun f => negb (mem f available)) (reads m)
      ++ dangling (writes m ++ available) ms'
  end.

(** What a concept provides: the concept itself, with its path and name. *)
Definition concept_fields : list string := ["concept"; "path"; "name"]%string.

(** The modules after the disk cache, and the fields it holds. *)
Fixpoint after_cache (ms : list PipelineModule)
  : option (list string * list PipelineModule) :=
  match ms with
  | [] => None
  | DiskCache _ split_names aggregate_names _ :: ms' =>
      Some (split_names ++ aggregate_names, ms')
  | _ :: ms' => after_cache ms'
  end.

End Fields.
End PipelineFields.


(** ** [modules/modelSampler/SanaSampler.py]: [__sample_base] and [sample] *)

Module SanaSamplerBase.
Import Torch SanaSampler.

Section Sampler.
Context `{Rng} {Image : Type}.

(** The scheduler of the pipeline.  [set_timesteps] gives the timesteps the
    scheduler holds after [set_timesteps(n, device)]; [step] gets the
    generator when its signature has a [generator] parameter, and returns
    it as it leaves it. *)
Record Scheduler : Type := mkScheduler {
  set_timesteps : Z -> string -> list Z;
  init_noise_sigma : F;
  config_num_train_timesteps : Z;
  step_has_generator : bool;
  step : Tensor -> Z -> Tensor -> option Generator -> Res (Tensor * option Generator)
}.

Record SanaPipeline : Type := mkPipeline {
  scheduler : Scheduler;
  postprocess : Tensor -> list bool -> list Image;
  transformer : Tensor -> Tensor -> Tensor -> list Z -> Res Tensor;
  in_channels : nat;
  vae_dtype : string;
  vae_scaling_factor : F;
  vae_decode : Tensor -> Res Tensor;
  vae_scale_factor : positive
}.

Record SanaModel : Type := mkSanaModel {
  encode_text : string -> string -> Z -> Z -> Res (Tensor * Tensor);
  add_embeddings_to_prompt : string -> string;
  train_dtype : string
}.

Record Sampler : Type := mkSampler {
  train_device : string;
  temp_device : string;
  model : SanaModel;
  pipeline : SanaPipeline
}.

(** What PyTorch and the system provide besides the tensors of [Torch]:
    the cast [t.to(dtype=...)], the standard deviation over every
    dimension but the first with [keepdim], the value of a float of the
    configuration, and the seed [generator.seed()] takes from the system. *)
Record Library : Type := mkLibrary {
  cast : string -> Tensor -> Tensor;
  std_keepdim : Tensor -> Tensor;
  float_of_Q : Q -> F;
  entropy_seed : Z;
  path_parent : string -> string
}.

(** The calls that leave a trace outside [__sample_base]: the moves of the
    three networks, the collections of garbage, the reports of progress
    and, for [sample], the writes to the file system and the callback.
    These calls are taken as returning: what raises in a run is the
    encoding of the prompts, a tensor operation, the transformer, the
    scheduler's step or the decoding. *)
Inductive Event : Type :=
| TextEncoderTo (device : string)
| TransformerTo (device : string)
| VaeTo (device : string)
| TorchGc
| UpdateProgress (i n : Z)
| MakeDirs (path : string)
| SaveImage (image : Image) (destination : string)
| OnSample (image : Image).

(** The state a call runs in: its generator and the events so far. *)
Record State : Type := mkState {
  generator : Generator;
  events : list Event
}.

(** Code that may raise; the state survives the exception. *)
Definition SM (A : Type) : Type := State -> Res A * State.

Definition sm_ret {A} (a : A) : SM A := fun s => (Ok a, s).

Definition sm_bind {A B} (m : SM A) (k : A -> SM B) : SM B :=
  fun s =>
    match m s with
    | (Ok a, s') => k a s'
    | (Raise e, s') => (Raise e, s')
    end.

Definition sm_lift {A} (r : Res A) : SM A := fun s => (r, s).

Definition emit (e : Event) : SM unit :=
  fun s => (Ok tt, {| generator := generator s; events := events s ++ [e] |}).

Notation "'let*' x := m 'in' k" := (sm_bind m (fun x => k))
  (at level 10, x name, m at level 100, k at level 200).
Notation "m ';;' k" := (sm_bind m (fun _ => k))
  (at level 100, right associativity).

(** [torch.randn(size, generator=generator, ..., dtype=torch.float32)] *)
Definition sm_randn (size : list nat) : SM Tensor :=
  fun s =>
    let '(t, g) := randn_from size "float32" (generator s) in
    (Ok t, {| generator := g; events := events s |}).

(** A size given as Python integers. *)
Definition size_of (dims : list Z) : Res (list nat) :=
  if forallb (fun d => 0 <=? d) dims then Ok (map Z.to_nat dims)
  else Raise RuntimeError.

(** [a, b = t.chunk(2)]: two chunks along the first dimension, the first
    of size [ceil(n / 2)]; a first dimension of size 1 gives one chunk
    only and the unpacking fails. *)
Definition chunk2 (t : Tensor) : Res (Tensor * Tensor) :=
  match shape t with
  | [] => Raise RuntimeError
  | n :: rest =>
      if (n =? 1)%nat then Raise ValueError
      else
        let c := ((n + 1) / 2)%nat in
        Ok ({| shape := c :: rest; item := item t |},
            {| shape := (n - c)%nat :: rest;
               item := fun idx =>
                 match idx with
                 | i :: idx' => item t ((i + c)%nat :: idx')
                 | [] => item t []
                 end |})
  end.

(** The guidance of one step: the statements from [chunk(2)] to the end of
    [if cfg_rescale > 0.0]. *)
Definition guide (lib : Library) (cfg_scale cfg_rescale : F) (noise_pred : Tensor)
  : Res Tensor :=
  res_bind (chunk2 noise_pred) (fun chunks =>
  let noise_pred_negative := fst chunks in
  let noise_pred_positive := snd chunks in
  res_bind (sub_t noise_pred_positive noise_pred_negative) (fun difference =>
  res_bind (add_t noise_pred_negative (scalar_mul cfg_scale difference)) (fun noise_pred =>
  if gt0 cfg_rescale then
    let std_positive := std_keepdim lib noise_pred_positive in
    let std_pred := std_keepdim lib noise_pred in
    res_bind (div_t std_positive std_pred) (fun ratio =>
    res_bind (mul_t noise_pred ratio) (fun noise_pred_rescaled =>
    add_t (scalar_mul cfg_rescale noise_pred_rescaled)
          (scalar_mul (fsub (of_Z 1) cfg_rescale) noise_pred)))
  else Ok noise_pred))).

(** One turn of the denoising loop, for the [i]-th timestep of [n]. *)
Definition denoise_step (self : Sampler) (lib : Library)
  (combined_prompt_embedding combined_prompt_attention_mask : Tensor)
  (cfg_scale cfg_rescale : F) (n : nat) (i : nat) (timestep : Z)
  (latent_image : Tensor) : SM Tensor :=
  let dtype := train_dtype (model self) in
  let* latent_model_input := sm_lift (concat [latent_image; latent_image] 0) in
  let* batch := sm_lift (shape_at latent_model_input 0) in
  let* noise_pred :=
    sm_lift (transformer (pipeline self)
               (cast lib dtype latent_model_input)
               (cast lib dtype combined_prompt_embedding)
               (cast lib dtype combined_prompt_attention_mask)
               (replicate batch timestep)) in
  let* noise_pred := sm_lift (guide lib cfg_scale cfg_rescale noise_pred) in
  let* latent_image :=
    (fun s =>
       let extra :=
         if step_has_generator (scheduler (pipeline self))
         then Some (generator s) else None in
       match step (scheduler (pipeline self)) noise_pred timestep latent_image extra with
       | Ok (t, g) =>
           (Ok t, {| generator := default (generator s) g; events := events s |})
       | Raise e => (Raise e, s)
       end) in
  emit (UpdateProgress (Z.of_nat i + 1) (Z.of_nat n)) ;;
  sm_ret latent_image.

(** The loop [for i, timestep in enumerate(timesteps)], from index [i]. *)
Fixpoint denoise_loop (self : Sampler) (lib : Library)
  (combined_prompt_embedding combined_prompt_attention_mask : Tensor)
  (cfg_scale cfg_rescale : F) (n : nat) (i : nat) (timesteps : list Z)
  (latent_image : Tensor) : SM Tensor :=
  match timesteps with
  | [] => sm_ret latent_image
  | timestep :: timesteps' =>
      let* latent_image :=
        denoise_step self lib combined_prompt_embedding
          combined_prompt_attention_mask cfg_scale cfg_rescale n i timestep
          latent_image in
      denoise_loop self lib combined_prompt_embedding combined_prompt_attention_mask
        cfg_scale cfg_rescale n (S i) timesteps' latent_image
  end.

(** The timesteps of a call: those of the scheduler, after the last
    training timestep when [force_last_timestep] is set. *)
Definition sample_timesteps (self : Sampler) (diffusion_steps : Z)
  (force_last_timestep : bool) : list Z :=
  let timesteps :=
    set_timesteps (scheduler (pipeline self)) diffusion_steps (train_device self) in
  if force_last_timestep
  then [1 * (config_num_train_timesteps (scheduler (pipeline self)) - 1)] ++ timesteps
  else timesteps.

Definition __sample_base (self : Sampler) (lib : Library)
  (prompt negative_prompt : string) (height width seed : Z) (random_seed : bool)
  (diffusion_steps : Z) (cfg_scale : F) (noise_scheduler : string) (cfg_rescale : F)
  (text_encoder_layer_skip : Z) (force_last_timestep : bool) : SM Image :=
  (fun s =>
     let g := new_generator (train_device self) in
     (Ok tt,
      {| generator := if random_seed then manual_seed (entropy_seed lib) g
                      else manual_seed seed g;
         events := events s |})) ;;
  let noise_scheduler := scheduler (pipeline self) in
  let vae_scale_factor := Zpos (vae_scale_factor (pipeline self)) in
  (* prepare prompt *)
  emit (TextEncoderTo (train_device self)) ;;
  let* positive :=
    sm_lift (encode_text (model self) prompt (train_device self) 1
               text_encoder_layer_skip) in
  let* negative :=
    sm_lift (encode_text (model self) negative_prompt (train_device self) 1
               text_encoder_layer_skip) in
  let* combined_prompt_embedding := sm_lift (concat [fst negative; fst positive] 0) in
  let* combined_prompt_attention_mask :=
    sm_lift (concat [snd negative; snd positive] 0) in
  emit (TextEncoderTo (temp_device self)) ;;
  emit TorchGc ;;
  (* prepare timesteps *)
  let timesteps := sample_timesteps self diffusion_steps force_last_timestep in
  (* prepare latent image *)
  let num_channels_latents := in_channels (pipeline self) in
  let* size :=
    sm_lift (size_of [1; Z.of_nat num_channels_latents;
                      height / vae_scale_factor; width / vae_scale_factor]) in
  let* noise := sm_randn size in
  let latent_image := mul_scalar noise (init_noise_sigma noise_scheduler) in
  (* denoising loop *)
  emit (TransformerTo (train_device self)) ;;
  let* latent_image :=
    denoise_loop self lib combined_prompt_embedding combined_prompt_attention_mask
      cfg_scale cfg_rescale (length timesteps) 0 timesteps latent_image in
  emit (TransformerTo (temp_device self)) ;;
  emit TorchGc ;;
  (* decode *)
  emit (VaeTo (train_device self)) ;;
  let latent_image := cast lib (vae_dtype (pipeline self)) latent_image in
  let* image :=
    sm_lift (vae_decode (pipeline self)
               (div_scalar latent_image (vae_scaling_factor (pipeline self)))) in
  let* batch := sm_lift (shape_at image 0) in
  let do_denormalize := replicate batch true in
  let image := postprocess (pipeline self) image do_denormalize in
  emit (VaeTo (temp_device self)) ;;
  match image with
  | first :: _ => sm_ret first
  | [] => sm_lift (Raise IndexError)
  end.

Definition sample (self : Sampler) (lib : Library) (sample_config : SampleConfig)
  (destination : string) : SM unit :=
  let call := sample_call (add_embeddings_to_prompt (model self)) sample_config in
  let* image :=
    __sample_base self lib (sb_prompt call) (sb_negative_prompt call)
      (sb_height call) (sb_width call) (sb_seed call) (sb_random_seed call)
      (sb_diffusion_steps call) (float_of_Q lib (sb_cfg_scale call))
      (sb_noise_scheduler call) (float_of_Q lib (sb_cfg_rescale call))
      (sb_text_encoder_layer_skip call) (sb_force_last_timestep call) in
  emit (MakeDirs (path_parent lib destination)) ;;
  emit (SaveImage image destination) ;;
  emit (OnSample image).

(** *** The placement of the networks *)

(** Where the text encoder, the transformer and the VAE are. *)
Record Placement : Type := mkPlacement {
  text_encoder_on : string;
  transformer_on : string;
  vae_on : string
}.

Definition move (p : Placement) (e : Event) : Placement :=
  match e with
  | TextEncoderTo d =>
      {| text_encoder_on := d; transformer_on := transformer_on p; vae_on := vae_on p |}
  | TransformerTo d =>
      {| text_encoder_on := text_encoder_on p; transformer_on := d; vae_on := vae_on p |}
  | VaeTo d =>
      {| text_encoder_on := text_encoder_on p; transformer_on := transformer_on p;
         vae_on := d |}
  | _ => p
  end.

(** The placement after a sequence of events. *)
Definition placement_after (p : Placement) (es : list Event) : Placement :=
  foldl move p es.

(** The networks on a device. *)
Definition count_on (d : string) (p : Placement) : nat :=
  ((if String.eqb (text_encoder_on p) d then 1 else 0)
   + (if String.eqb (transformer_on p) d then 1 else 0)
   + (if String.eqb (vae_on p) d then 1 else 0))%nat.

(** The reports of the steps [i], ..., [i + k - 1] of [n]. *)
Definition reports (n i k : nat) : list Event :=
  map (fun j => UpdateProgress (Z.of_nat j + 1) (Z.of_nat n)) (seq i k).

(** The events of a call of [__sample_base] over [n] timesteps that runs
    to its end. *)
Definition full_run (self : Sampler) (n : nat) : list Event :=
  [TextEncoderTo (train_device self); TextEncoderTo (temp_device self); TorchGc;
   TransformerTo (train_device self)]
  ++ reports n 0 n
  ++ [TransformerTo (temp_device self); TorchGc; VaeTo (train_device self);
      VaeTo (temp_device self)].

(** The reports of progress among events. *)
Fixpoint progress_reports (es : list Event) : list (Z * Z) :=
  match es with
  | [] => []
  | UpdateProgress i n :: es' => (i, n) :: progress_reports es'
  | _ :: es' => progress_reports es'
  end.

(** The events of [sample] on the file system and its callback. *)
Definition file_event (e : Event) : bool :=
  match e with
  | MakeDirs _ | SaveImage _ _ | OnSample _ => true
  | _ => false
  end.

End Sampler.
End SanaSamplerBase.

(** ** [modules/modelSaver/FluxFineTuneModelSaver.py] *)

Module FluxFineTuneModelSaver.

Section Save.
(** [ModelFormat], [ModelType], [FluxModel] and [torch.dtype] are not
    among the sources; [save] only compares the format with
    [ModelFormat.INTERNAL]. *)
Context {FluxModel ModelType ModelFormat Dtype : Type}.
Context `{EqDecision ModelFormat}.
Variable INTERNAL : ModelFormat.

(** How the calls [save] makes end: those of [FluxModelSaver.save] and
    [FluxEmbeddingSaver.save_multiple], and that of the mixin's
    [_save_internal_data]. *)
Record Savers : Type := mkSavers {
  base_model_saver_save : FluxModel -> ModelFormat -> string -> option Dtype -> Res unit;
  embedding_model_saver_save_multiple :
    FluxModel -> ModelFormat -> string -> option Dtype -> Res unit;
  _save_internal_data : FluxModel -> string -> Res unit
}.

Inductive Call : Type :=
| CallBaseSave (model : FluxModel) (output_model_format : ModelFormat)
    (output_model_destination : string) (dtype : option Dtype)
| CallEmbeddingSaveMultiple (model : FluxModel) (output_model_format : ModelFormat)
    (output_model_destination : string) (dtype : option Dtype)
| CallSaveInternalData (model : FluxModel) (output_model_destination : string).

(** [save] returns the calls it made, in order, and the way it ended. *)
Definition save (self : Savers) (model : FluxModel) (model_type : ModelType)
  (output_model_format : ModelFormat) (output_model_destination : string)
  (dtype : option Dtype) : list Call * Res unit :=
  let base :=
    CallBaseSave model output_model_format output_model_destination dtype in
  let embedding :=
    CallEmbeddingSaveMultiple model output_model_format output_model_destination dtype in
  match base_model_saver_save self model output_model_format
          output_model_destination dtype with
  | Raise e => ([base], Raise e)
  | Ok _ =>
      match embedding_model_saver_save_multiple self model output_model_format
              output_model_destination dtype with
      | Raise e => ([base; embedding], Raise e)
      | Ok _ =>
          if decide (output_model_format = INTERNAL)
          then ([base; embedding; CallSaveInternalData model output_model_destination],
                _save_internal_data self model output_model_destination)
          else ([base; embedding], Ok tt)
      end
  end.

Definition is_internal_data (c : Call) : bool :=
  match c with
  | CallSaveInternalData _ _ => true
  | _ => false
  end.

End Save.
End FluxFineTuneModelSaver.

(** ** [modules/util/args/SampleArgs.py] *)

Module SampleArgs.

Section Args.
(** The values of a Python dictionary. *)
Context {Val : Type}.





End Args.
End SampleArgs.

(** ** More instances *)

Module MoreInstances.
Import Torch StableDiffusionModel Instances.

(** The masked configuration with no noising at all. *)
Definition args_no_noising : @TrainArgs QFloat :=
  @mkTrainArgs QFloat FINE_TUNE_VAE (mkModelType true true false) "cpu" "float16"
    true 30 (1 # 10)%Q 0%Q true "dbg" true true true true 4 "latents" 8 768 true.

(** A world after other draws and with a generator already created. *)
Definition later_world : @StableDiffusionFineTuneSetup.World QFloat LcgRng :=
  @StableDiffusionFineTuneSetup.mkWorld QFloat LcgRng 77 [5] [].

(** The progress one step after that of the example model. *)
Definition later_progress : TrainProgress := mkTrainProgress 3 41 121.

(** A Sana sampler over stand-ins: the images are their sizes, the
    scheduler has as many timesteps as it is asked for and its step keeps
    the latent. *)
Definition example_sana_scheduler : @SanaSamplerBase.Scheduler QFloat LcgRng :=
  @SanaSamplerBase.mkScheduler QFloat LcgRng
    (fun n _ => map Z.of_nat (rev (seq 0 (Z.to_nat n))))
    1%Q 1000 true
    (fun noise_pred t latent g => Ok (latent, g)).

Definition example_sana_pipeline
  : @SanaSamplerBase.SanaPipeline QFloat LcgRng (list nat) :=
  @SanaSamplerBase.mkPipeline QFloat LcgRng (list nat)
    example_sana_scheduler
    (fun image flags => map (fun _ => @shape QFloat image) flags)
    (fun x e m ts => Ok x)
    2%nat "float32" (41407 # 100000)%Q
    (fun t => Ok t)
    32%positive.

Definition example_sana_model : @SanaSamplerBase.SanaModel QFloat :=
  @SanaSamplerBase.mkSanaModel QFloat
    (fun text device batch skip => Ok (full [1; 3; 4]%nat 0%Q, full [1; 3]%nat 1%Q))
    (fun prompt => prompt)
    "bfloat16".

Definition example_sampler : @SanaSamplerBase.Sampler QFloat LcgRng (list nat) :=
  @SanaSamplerBase.mkSampler QFloat LcgRng (list nat)
    "cuda" "cpu" example_sana_model example_sana_pipeline.

Definition example_library : @SanaSamplerBase.Library QFloat :=
  @SanaSamplerBase.mkLibrary QFloat
    (fun dtype t => t)
    (fun t => @mkTensor QFloat (hd 0%nat (@shape QFloat t) :: [1; 1; 1]%nat) (fun _ => 1%Q))
    (fun q => q)
    20260101
    (fun destination => destination).

Definition example_sana_state : @SanaSamplerBase.State QFloat LcgRng (list nat) :=
  @SanaSamplerBase.mkState QFloat LcgRng (list nat) 0 [].

(** The three networks on the temp device of the example. *)
Definition example_placement : SanaSamplerBase.Placement :=
  SanaSamplerBase.mkPlacement "cpu" "cpu" "cpu".

(** A call of [__sample_base] on the example, at 64 by 96 over 3 steps. *)
Definition example_sample_base :=
  @SanaSamplerBase.__sample_base QFloat LcgRng (list nat) example_sampler
    example_library "a photo" "" 64 96 42 false 3 (9 # 2)%Q "DDIM" (7 # 10)%Q 0 true
    example_sana_state.

End MoreInstances.

(** * Properties *)

(** ** The entry point *)

Module TrainProperties.
Import Torch Train.

Section Main.
Context `{Float}.

(** A failure of [train] other than an interruption leaves [main] at once:
    [trainer.end()] is not reached. *)
Lemma main_failure_propagates (args : TrainArgs) (e : exn) (o : Res unit) :
  e <> KeyboardInterrupt ->
  main args (fun _ => mkTrainer (Ok tt) (Raise e) o)
  = ([CallStart; CallTrain], Raise e).
Proof.
  intros He. unfold main.
  destruct (training_method args); cbn; destruct e; congruence.
Qed.

(** C2: when [trainer.train()] is interrupted by the user, [main] does not
    fail: it calls [trainer.end()] exactly when [args.backup_before_save]
    is set and otherwise returns without the end-of-run save; when
    [trainer.train()] returns, [trainer.end()] is always called. *)
Theorem main_end_of_run_save (args : TrainArgs) (o : Res unit) :
  main args (fun _ => mkTrainer (Ok tt) (Raise KeyboardInterrupt) o)
  = (if backup_before_save args
     then ([CallStart; CallTrain; CallEnd], o)
     else ([CallStart; CallTrain], Ok tt))
  /\ main args (fun _ => mkTrainer (Ok tt) (Ok tt) o)
     = ([CallStart; CallTrain; CallEnd], o).
Proof.
  unfold main.
  destruct (training_method args), (backup_before_save args); cbn; auto.
Qed.

End Main.
End TrainProperties.

(** ** [setup_model] *)

Module SetupModelProperties.
Import Torch StableDiffusionModel StableDiffusionFineTuneSetup.

Section SetupModel.
Context `{Rng}.

Lemma requires_grad__spec (b : bool) (ps : list NNParameter) :
  Forall (fun p => requires_grad p = b) (requires_grad_ b ps)
  /\ map param_name (requires_grad_ b ps) = map param_name ps.
Proof.
  unfold requires_grad_. split.
  - apply Forall_forall. intros p Hp.
    apply list_elem_of_In, in_map_iff in Hp. destruct Hp as (q & <- & _). reflexivity.
  - rewrite map_map. reflexivity.
Qed.

(** The optimizer bookkeeping of [setup_model] leaves the networks as the
    three [requires_grad_] calls set them. *)
Lemma setup_model_networks (model : StableDiffusionModel) (args : TrainArgs) :
  let m := fst (setup_model model args) in
  text_encoder m = text_encoder (setup_requires_grad model args)
  /\ vae m = vae (setup_requires_grad model args)
  /\ unet m = unet (setup_requires_grad model args).
Proof.
  unfold setup_model. cbn.
  destruct (optimizer_state_dict model) as [|[sd|]], (optimizer model); cbn; auto.
Qed.

(** C9: however a call of [setup_model] ends, it leaves every parameter of
    the VAE with [requires_grad = False], every parameter of the U-Net
    with [requires_grad = True], and every parameter of the text encoder
    with [requires_grad = True] exactly when [args.train_text_encoder] is
    set and the epoch of the model's progress is strictly below
    [args.train_text_encoder_epochs]. *)
Theorem setup_model_requires_grad (model : StableDiffusionModel) (args : TrainArgs) :
  let m := fst (setup_model model args) in
  Forall (fun p => requires_grad p = false) (vae_parameters (vae m))
  /\ Forall (fun p => requires_grad p = true) (unet_parameters (unet m))
  /\ Forall (fun p => requires_grad p = true <->
                      (train_text_encoder args = true
                       /\ epoch (train_progress model) < train_text_encoder_epochs args))
       (te_parameters (text_encoder m))
  /\ map param_name (vae_parameters (vae m)) = map param_name (vae_parameters (vae model))
  /\ map param_name (unet_parameters (unet m)) = map param_name (unet_parameters (unet model))
  /\ map param_name (te_parameters (text_encoder m))
     = map param_name (te_parameters (text_encoder model)).
Proof.
  intros m.
  destruct (setup_model_networks model args) as (Ht & Hv & Hu).
  fold m in Ht, Hv, Hu. rewrite Ht, Hv, Hu. cbn.
  repeat split; try apply requires_grad__spec.
  eapply Forall_impl; [apply requires_grad__spec|].
  intros p ->. rewrite andb_true_iff, Z.ltb_lt. reflexivity.
Qed.

End SetupModel.
End SetupModelProperties.

(** ** The Sana sampler *)

Module SanaSamplerProperties.
Import SanaSampler.


Example py_round_examples :
  py_round (5 # 2) = 2 /\ py_round (7 # 2) = 4 /\ py_round (-5 # 2) = -2
  /\ py_round (26 # 10) = 3 /\ py_round (-26 # 10) = -3.
Proof. vm_compute. repeat split; reflexivity. Qed.

(** A resolution that is not a multiple of 32 is moved to one. *)
Example quantize_resolution_500 :
  quantize_resolution 500 32 = 512 /\ quantize_resolution 1000 32 = 992
  /\ quantize_resolution 1024 32 = 1024 /\ quantize_resolution 16 32 = 0
  /\ quantize_resolution 48 32 = 64.
Proof. vm_compute. repeat split; reflexivity. Qed.




End SanaSamplerProperties.

(** ** The data-loader pipeline *)

Module DataLoaderProperties.
Import Torch StableDiffusionModel Mgds MgdsStableDiffusionFineTuneVaeDataLoader.

Section DataLoader.
Context `{Rng}.

Example splitext_examples :
  Path.splitext "x.tar.gz" = ("x.tar", ".gz")%string
  /\ Path.splitext "a/b.c/d" = ("a/b.c/d", "")%string
  /\ Path.splitext ".bashrc" = (".bashrc", "")%string
  /\ Path.splitext "dir/.a.png" = ("dir/.a", ".png")%string
  /\ Path.splitext "cat." = ("cat", ".")%string
  /\ Path.endswith "cat-masklabel" "-masklabel" = true
  /\ Path.endswith "label" "-masklabel" = false.
Proof. vm_compute. repeat split; reflexivity. Qed.


Example collects_examples :
  collects collect_paths "cat.png" = true
  /\ collects collect_paths "cat-masklabel.png" = false
  /\ collects collect_paths "cat.txt" = false
  /\ collects collect_paths "photos.old/cat.jpeg" = true
  /\ modify_path "-masklabel" (Some ".png"%string) "imgs/cat.jpg" = "imgs/cat-masklabel.png"%string.
Proof. vm_compute. repeat split; reflexivity. Qed.



(** C4, as amended: for every configuration the output stage opens with
    the distribution-sampling module reading [latent_image_distribution]
    and writing [latent_image] in mode ['mean'], the only sampling module
    of the stage; on a sample record it stores the mean of the
    distribution and draws nothing from the generator. *)
Theorem output_modules_take_mean (args : TrainArgs)
  (record : gmap string FieldValue) (d : DiagonalGaussianDistribution) (g : Generator) :
  record !! "latent_image_distribution"%string = Some (VDistribution d) ->
  head (__output_modules args)
  = Some (SampleVAEDistribution "latent_image_distribution" "latent_image" "mean")
  /\ sampling_modes (__output_modules args) = ["mean"%string]
  /\ sample_distribution_item "latent_image_distribution" "latent_image" "mean" record g
     = Ok (<["latent_image"%string := VTensor (mean d)]> record, g).
Proof.
  intros Hd. repeat split.
  unfold sample_distribution_item. rewrite Hd. reflexivity.
Qed.

End DataLoader.

Import Instances.

Lemma output_modules_take_mean_witness :
  ({["latent_image_distribution"%string := VDistribution unit_normal]}
     : gmap string FieldValue) !! "latent_image_distribution"%string
  = Some (VDistribution unit_normal)
  /\ @sample_distribution_item QFloat LcgRng "latent_image_distribution" "latent_image" "mean"
       {["latent_image_distribution"%string := VDistribution unit_normal]} 7
     = Ok (<["latent_image"%string := VTensor (mean unit_normal)]>
             {["latent_image_distribution"%string := VDistribution unit_normal]}, 7).
Proof.
  split; [reflexivity|].
  apply (@output_modules_take_mean QFloat LcgRng args_masked
           {["latent_image_distribution"%string := VDistribution unit_normal]}
           unit_normal 7).
  reflexivity.
Defined.

(** C4 fails as stated: the mode does not follow the configuration.  Both
    configurations, which differ in every switch, build the
    sampling module in mode ['mean']; in mode ['sample'] the same module
    would return a different tensor and advance the generator. *)
Lemma output_sampling_mode_is_fixed :
  sampling_modes (__output_modules args_plain) = ["mean"%string]
  /\ sampling_modes (__output_modules args_masked) = ["mean"%string]
  /\ (exists x g',
        @sample_distribution QFloat LcgRng "sample" unit_normal 7 = Ok (x, g')
        /\ item x [0; 0; 0]%nat = (-993 # 1000)%Q
        /\ item (mean unit_normal) [0; 0; 0]%nat = 0%Q
        /\ g' <> 7).
Proof.
  split; [reflexivity|]. split; [reflexivity|].
  eexists. eexists. split; [reflexivity|]. 
  split; [vm_compute; reflexivity|]. split; [reflexivity|]. vm_compute. discriminate.
Qed.

End DataLoaderProperties.

(** ** The training-step predictor *)

Module PredictProperties.
Import Torch StableDiffusionModel StableDiffusionFineTuneSetup.

Section Monad.
Context {FL : Float} {RG : Rng}.

Lemma bind_ok {A B} (m : M A) (k : A -> M B) (w w' : World) (b : B) :
  bind m k w = Ok (b, w') <->
  exists a w1, m w = Ok (a, w1) /\ k a w1 = Ok (b, w').
Proof.
  unfold bind. split.
  - destruct (m w) as [[a w1]|e]; [|discriminate]. intros Hk. eauto.
  - intros (a & w1 & -> & Hk). exact Hk.
Qed.

Lemma ret_ok {A} (a b : A) (w w' : World) :
  ret a w = Ok (b, w') <-> b = a /\ w' = w.
Proof. unfold ret. split; [intros [= -> ->] | intros [-> ->]]; auto. Qed.

Lemma lift_ok {A} (r : Res A) (a : A) (w w' : World) :
  lift r w = Ok (a, w') <-> r = Ok a /\ w' = w.
Proof.
  unfold lift. destruct r; split; try discriminate.
  - intros [= -> ->]. auto.
  - intros [[= ->] ->]. reflexivity.
  - intros [? _]. discriminate.
Qed.

End Monad.

(** Decompose a successful run of monadic code into its steps. *)
Ltac invert_run :=
  repeat match goal with
  | H : bind _ _ _ = Ok _ |- _ =>
      apply bind_ok in H; destruct H as (? & ? & ? & H); cbv beta in H
  | H : ret _ _ = Ok _ |- _ => apply ret_ok in H; destruct H as [? ?]
  | H : lift _ _ = Ok _ |- _ => apply lift_ok in H; destruct H as [? ?]
  end.

Section Predict.
Context {FL : Float} {RG : Rng}.

Lemma torch_Generator_ok (device : string) (w : World) :
  torch_Generator device w
  = Ok (length (generators w),
        mkWorld (default_generator w) (generators w ++ [new_generator device])
                (saved_images w)).
Proof. reflexivity. Qed.

(** A generator created and seeded: its state depends on the seed and the
    device alone. *)
Lemma seeded_generator (device : string) (seed : Z) (w w1 w2 : World) (g : nat) :
  torch_Generator device w = Ok (g, w1) ->
  generator_manual_seed g seed w1 = Ok (tt, w2) ->
  g = length (generators w)
  /\ generators w2 = generators w ++ [manual_seed seed (new_generator device)]
  /\ default_generator w2 = default_generator w
  /\ saved_images w2 = saved_images w.
Proof.
  unfold torch_Generator, generator_manual_seed. intros [= <- <-]. cbn.
  rewrite lookup_app_r, Nat.sub_diag by lia. cbn. intros [= <-]. cbn.
  repeat split.
  rewrite insert_app_r_alt, Nat.sub_diag by lia. reflexivity.
Qed.

Lemma torch_randn_ok (size : list nat) (g : nat) (dtype : string) (w w' : World)
  (t : Tensor) :
  torch_randn size g dtype w = Ok (t, w') <->
  exists st, generators w !! g = Some st
    /\ t = fst (randn_from size dtype st)
    /\ w' = mkWorld (default_generator w)
                    (<[g := snd (randn_from size dtype st)]> (generators w))
                    (saved_images w).
Proof.
  unfold torch_randn. destruct (generators w !! g) as [st|]; cbn.
  - split.
    + intros [= <- <-]. eauto.
    + intros (st' & [= <-] & -> & ->). reflexivity.
  - split; [discriminate | intros (st & ? & _); discriminate].
Qed.


(** The steps of a run of the main path of [predict] that returns. *)
Lemma predict_forward_inv (model : StableDiffusionModel)
  (batch : gmap string BatchValue) (args : TrainArgs)
  (train_progress : TrainProgress) (w w' : World) (l : Locals) :
  predict_forward model batch args train_progress w = Ok (l, w') ->
  batch_tensor batch "latent_image" = Ok (latent_image l)
  /\ scaled_latent_image l = mul_scalar (latent_image l) (scaling_factor (vae model))
  /\ (if has_conditioning_image_input (model_type args)
      then exists c, batch_tensor batch "latent_conditioning_image" = Ok c
             /\ latent_conditioning_image l = Some c
             /\ scaled_latent_conditioning_image l
                = Some (mul_scalar c (scaling_factor (vae model)))
      else latent_conditioning_image l = None
           /\ scaled_latent_conditioning_image l = None)
  /\ generator l = length (generators w)
  /\ (exists w2,
        draw_latent_noise args (scaled_latent_image l) (generator l)
          (seeded_world args train_progress w) = Ok (latent_noise l, w2)
        /\ draw_timestep model args (scaled_latent_image l) w2 = Ok (timestep l, w'))
  /\ scaled_noisy_latent_image l
     = add_noise (noise_scheduler model) (scaled_latent_image l) (latent_noise l)
         (timestep l)
  /\ (exists tokens, batch_tokens batch "tokens" = Ok tokens
        /\ text_encoder_output l = te_forward (text_encoder model) tokens)
  /\ assemble_latent_input args batch (scaled_noisy_latent_image l)
       (scaled_latent_conditioning_image l) = Ok (latent_input l)
  /\ (exists depth, depth_input args batch = Ok depth
        /\ predicted_latent_noise l
           = unet_forward (unet model) (latent_input l) (timestep l)
               (text_encoder_output l) depth).
Proof.
  unfold predict_forward. intros Hrun.
  apply bind_ok in Hrun. destruct Hrun as (li & w1 & Hli & Hrun).
  apply lift_ok in Hli. destruct Hli as [Hli ->].
  apply bind_ok in Hrun. destruct Hrun as (cond & w1 & Hcond & Hrun).
  assert (Hcond' : w1 = w /\
    (if has_conditioning_image_input (model_type args)
     then exists c, batch_tensor batch "latent_conditioning_image" = Ok c
            /\ fst cond = Some c
            /\ snd cond = Some (mul_scalar c (scaling_factor (vae model)))
     else fst cond = None /\ snd cond = None)).
  { destruct (has_conditioning_image_input (model_type args)).
    - invert_run. subst. cbn. eauto.
    - invert_run. subst. cbn. auto. }
  destruct Hcond' as [-> Hcond']. clear Hcond.
  apply bind_ok in Hrun. destruct Hrun as (g & w1 & Hg & Hrun).
  apply bind_ok in Hrun. destruct Hrun as ([] & w2 & Hseed & Hrun).
  destruct (seeded_generator _ _ _ _ _ _ Hg Hseed) as (-> & Hgens & Hdef & Hsaved).
  assert (Hw2 : w2 = seeded_world args train_progress w).
  { unfold seeded_world. destruct w2; cbn in *. congruence. }
  subst w2. clear Hg Hseed Hgens Hdef Hsaved.
  apply bind_ok in Hrun. destruct Hrun as (ln & w2 & Hln & Hrun).
  apply bind_ok in Hrun. destruct Hrun as (ts & w3 & Hts & Hrun).
  apply bind_ok in Hrun. destruct Hrun as (tokens & w4 & Htok & Hrun).
  apply lift_ok in Htok. destruct Htok as [Htok ->].
  apply bind_ok in Hrun. destruct Hrun as (inp & w4 & Hinp & Hrun).
  apply lift_ok in Hinp. destruct Hinp as [Hinp ->].
  apply bind_ok in Hrun. destruct Hrun as (pred & w4 & Hpred & Hrun).
  apply ret_ok in Hrun. destruct Hrun as [-> ->]. cbn.
  assert (Hpred' : w4 = w3 /\ exists depth, depth_input args batch = Ok depth
            /\ pred = unet_forward (unet model) inp ts
                        (te_forward (text_encoder model) tokens) depth).
  { unfold depth_input. destruct (has_depth_input (model_type args)).
    - invert_run. subst. split; [reflexivity|].
      match goal with Hd : batch_tensor _ _ = Ok ?d |- _ =>
        exists (Some d); rewrite Hd end. auto.
    - invert_run. subst. eauto. }
  destruct Hpred' as [-> Hpred'].
  repeat split; eauto.
Qed.


(** *** The noise of a step *)

Lemma bshape_offset (N C H W : nat) :
  bshape [N; C; H; W] [N; C; 1%nat; 1%nat] = Some [N; C; H; W].
Proof.
  unfold bshape. cbn. unfold bdim. rewrite !Nat.eqb_refl.
  destruct (W =? 1)%nat, (H =? 1)%nat; reflexivity.
Qed.

Lemma bindex_full (N C H W n c h w : nat) :
  (n < N)%nat -> (c < C)%nat -> (h < H)%nat -> (w < W)%nat ->
  bindex [N; C; H; W] [n; c; h; w] = [n; c; h; w].
Proof.
  intros Hn Hc Hh Hw. unfold bindex. cbn.
  repeat match goal with
  | |- context [(?d =? 1)%nat] => destruct (Nat.eqb_spec d 1)
  end; repeat f_equal; lia.
Qed.

Lemma bindex_offset (N C n c h w : nat) :
  (n < N)%nat -> (c < C)%nat ->
  bindex [N; C; 1%nat; 1%nat] [n; c; h; w] = [n; c; 0%nat; 0%nat].
Proof.
  intros Hn Hc. unfold bindex. cbn.
  repeat match goal with
  | |- context [(?d =? 1)%nat] => destruct (Nat.eqb_spec d 1)
  end; repeat f_equal; lia.
Qed.

Lemma draw_latent_noise_inv (args : TrainArgs) (t noise : Tensor) (g : nat)
  (st : Generator) (w w' : World) (N C H W : nat) :
  shape t = [N; C; H; W] ->
  generators w !! g = Some st ->
  draw_latent_noise args t g w = Ok (noise, w') ->
  if gt0 (offset_noise_weight args)
  then add_t (normal_noise_of args [N; C; H; W] st)
             (scalar_mul (offset_noise_weight args)
                (offset_noise_of args N C [N; C; H; W] st))
       = Ok noise
  else noise = normal_noise_of args [N; C; H; W] st.
Proof.
  intros Hshape Hg. unfold draw_latent_noise, normal_noise_of, offset_noise_of.
  rewrite Hshape. unfold shape_at. rewrite Hshape. cbn [lookup list_lookup].
  destruct (gt0 (offset_noise_weight args)).
  - intros Hrun. invert_run. subst.
    repeat match goal with
    | Hr : torch_randn _ _ _ _ = Ok _ |- _ =>
        apply torch_randn_ok in Hr; destruct Hr as (? & ? & ? & ?)
    | Hr : Ok _ = Ok _ |- _ => injection Hr as ?
    end.
    subst. cbn [generators] in *.
    match goal with
    | Hl : <[g:=_]> (generators w) !! g = Some _ |- _ =>
        rewrite list_lookup_insert_eq in Hl by (eapply lookup_lt_Some; eassumption);
        injection Hl as <-
    end.
    match goal with
    | Hl : generators w !! g = Some ?x, Hg : generators w !! g = Some st |- _ =>
        rewrite Hg in Hl; injection Hl as <-
    end.
    assumption.
  - intros Hrun. apply torch_randn_ok in Hrun. destruct Hrun as (st' & Hst' & -> & _).
    rewrite Hg in Hst'. injection Hst' as <-. reflexivity.
Qed.

(** C7: with the latent of shape [N; C; H; W] and [g0] the generator
    seeded from the global step: when [args.offset_noise_weight > 0] the
    latent noise has the shape of the latent, and its element at
    [n, c, h, w] is the element of a full-shape Gaussian draw plus the
    weight times the element at [n, c, 0, 0] of a second Gaussian draw of
    shape [N; C; 1; 1]; otherwise it is the full-shape Gaussian draw. *)
Theorem latent_noise_offset (model : StableDiffusionModel)
  (batch : gmap string BatchValue) (args : TrainArgs)
  (train_progress : TrainProgress) (w w' : World) (l : Locals) (N C H W : nat) :
  predict_forward model batch args train_progress w = Ok (l, w') ->
  shape (latent_image l) = [N; C; H; W] ->
  let g0 := manual_seed (global_step train_progress) (new_generator (train_device args)) in
  let normal_noise := normal_noise_of args [N; C; H; W] g0 in
  let offset_noise := offset_noise_of args N C [N; C; H; W] g0 in
  shape normal_noise = [N; C; H; W]
  /\ shape offset_noise = [N; C; 1%nat; 1%nat]
  /\ if gt0 (offset_noise_weight args)
     then shape (latent_noise l) = [N; C; H; W]
          /\ forall n c h w : nat,
               (n < N)%nat -> (c < C)%nat -> (h < H)%nat -> (w < W)%nat ->
               item (latent_noise l) [n; c; h; w]
               = fadd (item normal_noise [n; c; h; w])
                      (fmul (offset_noise_weight args)
                            (item offset_noise [n; c; 0%nat; 0%nat]))
     else latent_noise l = normal_noise.
Proof.
  intros Hrun Hshape g0 normal_noise offset_noise.
  split; [reflexivity|]. split; [reflexivity|].
  apply predict_forward_inv in Hrun.
  destruct Hrun as (_ & Hscaled & _ & Hgen & (w2 & Hnoise & _) & _).
  assert (Hs : shape (scaled_latent_image l) = [N; C; H; W])
    by (rewrite Hscaled; exact Hshape).
  eapply (draw_latent_noise_inv _ _ _ _ g0) in Hnoise; [|exact Hs|].
  2:{ rewrite Hgen. unfold seeded_world. cbn.
      rewrite lookup_app_r, Nat.sub_diag by lia. reflexivity. }
  destruct (gt0 (offset_noise_weight args)); [|exact Hnoise].
  unfold add_t, broadcast2 in Hnoise. cbn [shape normal_noise_of offset_noise_of
    randn_from fst scalar_mul tmap] in Hnoise.
  rewrite bshape_offset in Hnoise. injection Hnoise as <-. cbn [shape item].
  split; [reflexivity|].
  intros n c h w0 Hn Hc Hh Hw.
  rewrite bindex_full, bindex_offset by assumption. reflexivity.
Qed.


(** *** The timesteps of a step *)

Lemma randint_from_range (low high : Z) (n : nat) (g g' : Generator) (ts : list Z) :
  randint_from low high n g = Ok (ts, g') ->
  low < high /\ length ts = n /\ Forall (fun t => low <= t < high) ts.
Proof.
  unfold randint_from. destruct (Z.leb_spec high low); [discriminate|].
  intros [= <- <-]. split; [assumption|]. split.
  - rewrite length_map, length_seq. reflexivity.
  - apply Forall_forall. intros t Ht.
    apply list_elem_of_In, in_map_iff in Ht. destruct Ht as (k & <- & _).
    pose proof (Z.mod_pos_bound (raw_at g k) (high - low)). lia.
Qed.

Lemma randint_from_total (low high : Z) (n : nat) (g : Generator) :
  low < high -> is_ok (randint_from low high n g) = true.
Proof.
  intros Hlt. unfold randint_from.
  destruct (Z.leb_spec high low); [lia | reflexivity].
Qed.

(** Every value of the range is the image of some raw draw. *)
Lemma randint_from_attains (high : Z) (n k : nat) (g : Generator) (t : Z) :
  0 <= t < high -> (k < n)%nat -> raw_at g k = t ->
  exists ts g', randint_from 0 high n g = Ok (ts, g') /\ ts !! k = Some t.
Proof.
  intros Ht Hk Hraw. unfold randint_from.
  destruct (Z.leb_spec high 0); [lia|].
  eexists. eexists. split; [reflexivity|].
  rewrite list_lookup_fmap, lookup_seq_lt by assumption. cbn.
  rewrite Hraw, Z.sub_0_r, Z.mod_small by lia. reflexivity.
Qed.


Lemma draw_timestep_inv (model : StableDiffusionModel) (args : TrainArgs)
  (t : Tensor) (w w' : World) (ts : list Z) :
  draw_timestep model args t w = Ok (ts, w') ->
  exists (d0 : nat) (g' : Generator),
    shape t !! 0%nat = Some d0
    /\ randint_from 0 (timestep_high model args) d0 (default_generator w) = Ok (ts, g')
    /\ w' = mkWorld g' (generators w) (saved_images w).
Proof.
  unfold draw_timestep, shape_at, torch_randint. fold (timestep_high model args).
  intros Hrun. apply bind_ok in Hrun. destruct Hrun as (d0 & w1 & Hd & Hrun).
  apply lift_ok in Hd. destruct Hd as [Hd ->].
  destruct (shape t !! 0%nat) as [d|] eqn:Hs; [|discriminate]. injection Hd as ->.
  destruct (randint_from 0 (timestep_high model args) d0 (default_generator w))
    as [[ts' g']|e] eqn:Hr; [|discriminate].
  injection Hrun as <- <-. exists d0, g'. auto.
Qed.



(** *** The input of the denoising network *)

Lemma delete_list_insert {A} (l : list A) (i : nat) (x : A) :
  delete i (<[i := x]> l) = delete i l.
Proof.
  revert i. induction l as [|y l IH]; intros [|i]; cbn; try reflexivity.
  f_equal. apply IH.
Qed.

Lemma concat3_channels (a b c r : Tensor) :
  concat [a; b; c] 1 = Ok r ->
  exists ca cb cc : nat,
    shape a !! 1%nat = Some ca /\ shape b !! 1%nat = Some cb
    /\ shape c !! 1%nat = Some cc
    /\ shape r = <[1%nat := (ca + cb + cc)%nat]> (shape a)
    /\ shape r !! 1%nat = Some (ca + cb + cc)%nat
    /\ delete 1%nat (shape b) = delete 1%nat (shape a)
    /\ delete 1%nat (shape c) = delete 1%nat (shape a)
    /\ item r = concat_item [a; b; c] 1.
Proof.
  unfold concat.
  destruct (Nat.ltb_spec 1 (length (shape a))) as [Hlen|]; [|discriminate]. cbn [negb].
  destruct (forallb _ _) eqn:Hcompat; [|discriminate].
  intros Hr.
  assert (Hitem : item r = concat_item [a; b; c] 1)
    by (injection Hr as <-; reflexivity).
  assert (Hshape : shape r = <[1%nat := concat_size [a; b; c] 1]> (shape a))
    by (injection Hr as <-; reflexivity).
  clear Hr.
  cbn [forallb] in Hcompat. unfold concat_compatible in Hcompat.
  repeat match goal with
  | Hb : bool_decide _ = true |- _ => apply bool_decide_eq_true in Hb
  | Hb : _ && _ = true |- _ => apply andb_prop in Hb; destruct Hb
  end.
  destruct (lookup_lt_is_Some_2 (shape a) 1%nat Hlen) as [ca Hca].
  destruct (lookup_lt_is_Some_2 (shape b) 1%nat ltac:(congruence)) as [cb Hcb].
  destruct (lookup_lt_is_Some_2 (shape c) 1%nat ltac:(congruence)) as [cc Hcc].
  exists ca, cb, cc.
  assert (Hsize : concat_size [a; b; c] 1 = (ca + cb + cc)%nat).
  { unfold concat_size. cbn. rewrite Hca, Hcb, Hcc. cbn. lia. }
  rewrite Hsize in Hshape. rewrite Hshape. repeat split; auto.
  apply list_lookup_insert_eq. exact Hlen.
Qed.

Lemma concat3_item (a b c : Tensor) (ca cb cc n k h w : nat) :
  shape a !! 1%nat = Some ca -> shape b !! 1%nat = Some cb ->
  shape c !! 1%nat = Some cc -> (k < ca + cb + cc)%nat ->
  concat_item [a; b; c] 1 [n; k; h; w]
  = if (k <? ca)%nat then item a [n; k; h; w]
    else if (k - ca <? cb)%nat then item b [n; (k - ca)%nat; h; w]
    else item c [n; (k - ca - cb)%nat; h; w].
Proof.
  intros Ha Hb Hc Hk. cbv beta iota zeta delta [concat_item].
  rewrite Ha, Hb, Hc.
  cbn [lookup list_lookup insert list_insert from_option id].
  destruct (Nat.ltb_spec k ca); [reflexivity|].
  destruct (Nat.ltb_spec (k - ca) cb); [reflexivity|].
  destruct (Nat.ltb_spec (k - ca - cb) cc); [reflexivity | lia].
Qed.

(** C3: the denoising network is called on [latent_input].  For a model
    type with both mask input and conditioning-image input it is the
    concatenation along dimension 1 of the scaled noisy latent image, the
    latent mask of the batch and the scaled latent conditioning image:
    its size along dimension 1 is the sum of theirs, and its channels are
    theirs in that order.  For every other model type it is the scaled
    noisy latent image itself. *)
Theorem latent_input_assembly (model : StableDiffusionModel)
  (batch : gmap string BatchValue) (args : TrainArgs)
  (train_progress : TrainProgress) (w w' : World) (l : Locals) :
  predict_forward model batch args train_progress w = Ok (l, w') ->
  (exists depth,
     predicted_latent_noise l
     = unet_forward (unet model) (latent_input l) (timestep l)
         (text_encoder_output l) depth)
  /\ if has_mask_input (model_type args) && has_conditioning_image_input (model_type args)
     then exists (mask conditioning : Tensor) (cl cm cc : nat),
            batch_tensor batch "latent_mask" = Ok mask
            /\ batch_tensor batch "latent_conditioning_image" = Ok conditioning
            /\ concat [scaled_noisy_latent_image l; mask;
                       mul_scalar conditioning (scaling_factor (vae model))] 1
               = Ok (latent_input l)
            /\ shape (scaled_noisy_latent_image l) !! 1%nat = Some cl
            /\ shape mask !! 1%nat = Some cm
            /\ shape conditioning !! 1%nat = Some cc
            /\ shape (latent_input l) !! 1%nat = Some (cl + cm + cc)%nat
            /\ delete 1%nat (shape (latent_input l))
               = delete 1%nat (shape (scaled_noisy_latent_image l))
            /\ forall n k h x : nat,
                 (k < cl + cm + cc)%nat ->
                 item (latent_input l) [n; k; h; x]
                 = if (k <? cl)%nat
                   then item (scaled_noisy_latent_image l) [n; k; h; x]
                   else if (k - cl <? cm)%nat
                   then item mask [n; (k - cl)%nat; h; x]
                   else fmul (item conditioning [n; (k - cl - cm)%nat; h; x])
                             (scaling_factor (vae model))
     else latent_input l = scaled_noisy_latent_image l.
Proof.
  intros Hrun. apply predict_forward_inv in Hrun.
  destruct Hrun as (_ & _ & Hcond & _ & _ & _ & _ & Hinput & (depth & _ & Hpred)).
  split; [eauto|].
  unfold assemble_latent_input in Hinput.
  destruct (has_mask_input (model_type args)); cbn [andb] in *;
    [|injection Hinput as <-; reflexivity].
  destruct (has_conditioning_image_input (model_type args));
    [|injection Hinput as <-; reflexivity].
  destruct Hcond as (c & Hc & _ & Hscaled). rewrite Hscaled in Hinput.
  destruct (batch_tensor batch "latent_mask") as [mask|] eqn:Hmask; [|discriminate].
  cbn [res_bind] in Hinput.
  destruct (concat3_channels _ _ _ _ Hinput)
    as (cl & cm & cc & Hcl & Hcm & Hcc & Hshape & Hch & _ & _ & Hitem).
  exists mask, c, cl, cm, cc. repeat split; auto.
  - rewrite Hshape. apply delete_list_insert.
  - intros n k h x Hk. rewrite Hitem.
    rewrite (concat3_item _ _ _ cl cm cc) by assumption. reflexivity.
Qed.


(** *** The debug branch *)


Lemma bshape_column (N C H W : nat) :
  bshape [N; C; H; W] [N; 1%nat; 1%nat; 1%nat] = Some [N; C; H; W].
Proof.
  unfold bshape. cbn. unfold bdim. rewrite !Nat.eqb_refl.
  destruct (W =? 1)%nat, (H =? 1)%nat, (C =? 1)%nat; reflexivity.
Qed.

Lemma bshape_same (s : list nat) : bshape s s = Some s.
Proof.
  unfold bshape.
  assert (Hrev : forall r, bshape_rev r r = Some r).
  { induction r as [|d r IH]; [reflexivity|]. cbn.
    unfold bdim. rewrite Nat.eqb_refl, IH. reflexivity. }
  rewrite Hrev, rev_involutive. reflexivity.
Qed.

Lemma index_by_ok (t : Tensor) (T : nat) (idx : list Z) :
  shape t = [T] -> Forall (fun i => 0 <= i < Z.of_nat T) idx ->
  exists r, index_by t idx = Ok r /\ shape r = [length idx].
Proof.
  intros Hshape Hidx. unfold index_by. rewrite Hshape.
  assert (Hall : forallb (fun i => bool_decide (is_Some (wrap_index T i))) idx = true).
  { apply forallb_forall. intros i Hi.
    rewrite Forall_forall in Hidx. specialize (Hidx i (proj2 (list_elem_of_In _ _) Hi)).
    apply bool_decide_eq_true. unfold wrap_index.
    destruct (Z.leb_spec 0 i); [|lia]. destruct (Z.ltb_spec i (Z.of_nat T)); [|lia].
    cbn. eauto. }
  rewrite Hall. eexists. split; reflexivity.
Qed.

Lemma save_image_bind {A} (image : Tensor) (directory name : string) (step : Z)
  (k : unit -> M A) (w : World) :
  bind (save_image image directory name step) k w
  = k tt (mkWorld (default_generator w) (generators w)
            (saved_images w ++ [mkSavedImage image directory name step])).
Proof. reflexivity. Qed.

Lemma lift_bind {A B} (r : Res A) (a : A) (k : A -> M B) (w : World) :
  r = Ok a -> bind (lift r) k w = k a w.
Proof. intros ->. reflexivity. Qed.

(** The debug branch touches no generator. *)
Lemma predict_debug_generators (model : StableDiffusionModel) (args : TrainArgs)
  (train_progress : TrainProgress) (l : Locals) (w w' : World) (u : unit) :
  predict_debug model args train_progress l w = Ok (u, w') ->
  default_generator w' = default_generator w /\ generators w' = generators w.
Proof.
  unfold predict_debug. rewrite !save_image_bind. intros Hrun.
  apply bind_ok in Hrun. destruct Hrun as (a1 & w1 & H1 & Hrun).
  apply lift_ok in H1. destruct H1 as [_ ->].
  apply bind_ok in Hrun. destruct Hrun as (a2 & w2 & H2 & Hrun).
  apply lift_ok in H2. destruct H2 as [_ ->].
  apply bind_ok in Hrun. destruct Hrun as (a3 & w3 & H3 & Hrun).
  apply lift_ok in H3. destruct H3 as [_ ->].
  apply bind_ok in Hrun. destruct Hrun as (a4 & w4 & H4 & Hrun).
  apply lift_ok in H4. destruct H4 as [_ ->].
  apply bind_ok in Hrun. destruct Hrun as (a5 & w5 & H5 & Hrun).
  apply lift_ok in H5. destruct H5 as [_ ->].
  rewrite !save_image_bind in Hrun.
  destruct (has_conditioning_image_input (model_type args)).
  - destruct (latent_conditioning_image l); [|discriminate].
    unfold save_image in Hrun. injection Hrun as _ <-. auto.
  - unfold ret in Hrun. injection Hrun as _ <-. auto.
Qed.

(** On tensors of the shapes the networks are specified to return, the
    debug branch runs to its end and only stores images. *)
Lemma predict_debug_total (model : StableDiffusionModel) (args : TrainArgs)
  (train_progress : TrainProgress) (l : Locals) (w : World) (N C H W T : nat) :
  shape (predicted_latent_noise l) = [N; C; H; W] ->
  shape (scaled_noisy_latent_image l) = [N; C; H; W] ->
  length (timestep l) = N ->
  shape (alphas_cumprod (noise_scheduler model)) = [T] ->
  Forall (fun t => 0 <= t < Z.of_nat T) (timestep l) ->
  (has_conditioning_image_input (model_type args) = true ->
   is_Some (latent_conditioning_image l)) ->
  exists images,
    predict_debug model args train_progress l w
    = Ok (tt, mkWorld (default_generator w) (generators w) (saved_images w ++ images))
    /\ length images = debug_image_count args.
Proof.
  intros Hpred Hnoisy Hlen Halphas Hts Hcond.
  unfold predict_debug. rewrite !save_image_bind.
  destruct (index_by_ok _ _ _ Halphas Hts) as (alphas & Hidx & Hshape).
  rewrite (lift_bind _ _ _ _ Hidx), (lift_bind _ _ _ _ Hidx).
  assert (Hcol : forall t : Tensor, shape t = [length (timestep l)] ->
            shape (reshape_m1_1_1_1 (flatten (sqrt_t t))) = [N; 1; 1; 1]%nat).
  { intros t Ht. cbn. rewrite Ht, Hlen. cbn. rewrite !Nat.mul_1_r. reflexivity. }
  unfold mul_t, sub_t, div_t, broadcast2.
  rewrite (Hcol (scalar_sub (of_Z 1) alphas)) by exact Hshape.
  rewrite Hpred, bshape_column. cbn [lift bind shape].
  rewrite Hnoisy, bshape_same. cbn [lift bind shape].
  rewrite (Hcol alphas) by exact Hshape.
  rewrite bshape_column. cbn [lift bind shape].
  rewrite !save_image_bind.
  unfold debug_image_count.
  destruct (has_conditioning_image_input (model_type args)).
  - destruct (Hcond eq_refl) as [c Hc]. rewrite Hc.
    unfold save_image. cbn [default_generator generators saved_images].
    rewrite <- !app_assoc. eexists. split; reflexivity.
  - unfold ret. cbn [default_generator generators saved_images].
    rewrite <- !app_assoc. eexists. split; reflexivity.
Qed.


Lemma draw_latent_noise_world (args : TrainArgs) (t noise : Tensor) (g : nat)
  (w w' : World) :
  draw_latent_noise args t g w = Ok (noise, w') ->
  default_generator w' = default_generator w /\ saved_images w' = saved_images w.
Proof.
  unfold draw_latent_noise. destruct (gt0 (offset_noise_weight args)); intros Hrun.
  - invert_run. subst.
    repeat match goal with
    | Hr : torch_randn _ _ _ _ = Ok _ |- _ =>
        apply torch_randn_ok in Hr; destruct Hr as (? & ? & ? & ?)
    end.
    subst. cbn. auto.
  - apply torch_randn_ok in Hrun. destruct Hrun as (? & ? & ? & ->). cbn. auto.
Qed.

(** The main path stores no image. *)
Lemma predict_forward_saved_images (model : StableDiffusionModel)
  (batch : gmap string BatchValue) (args : TrainArgs)
  (train_progress : TrainProgress) (w w' : World) (l : Locals) :
  predict_forward model batch args train_progress w = Ok (l, w') ->
  saved_images w' = saved_images w.
Proof.
  intros Hrun. apply predict_forward_inv in Hrun.
  destruct Hrun as (_ & _ & _ & _ & (w2 & Hnoise & Hts) & _).
  apply draw_latent_noise_world in Hnoise. destruct Hnoise as [_ Hsaved].
  apply draw_timestep_inv in Hts. destruct Hts as (d0 & g' & _ & _ & ->).
  cbn. rewrite Hsaved. reflexivity.
Qed.

Lemma predict_forward_debug_mode (b : bool) (model : StableDiffusionModel)
  (batch : gmap string BatchValue) (args : TrainArgs)
  (train_progress : TrainProgress) :
  predict_forward model batch (set_debug_mode b args) train_progress
  = predict_forward model batch args train_progress.
Proof. reflexivity. Qed.

Lemma predict_debug_debug_mode (b : bool) (model : StableDiffusionModel)
  (args : TrainArgs) (train_progress : TrainProgress) (l : Locals) :
  predict_debug model (set_debug_mode b args) train_progress l
  = predict_debug model args train_progress l.
Proof. reflexivity. Qed.

Lemma predict_unfold (model : StableDiffusionModel)
  (batch : gmap string BatchValue) (args : TrainArgs)
  (train_progress : TrainProgress) (w : World) :
  predict model batch args train_progress w
  = match predict_forward model batch args train_progress w with
    | Ok (l, w2) =>
        if debug_mode args
        then match predict_debug model args train_progress l w2 with
             | Ok (_, w3) => Ok ((predicted_latent_noise l, latent_noise l), w3)
             | Raise e => Raise e
             end
        else Ok ((predicted_latent_noise l, latent_noise l), w2)
    | Raise e => Raise e
    end.
Proof.
  unfold predict, bind.
  destruct (predict_forward model batch args train_progress w) as [[l w2]|e];
    [|reflexivity].
  destruct (debug_mode args); [|reflexivity].
  destruct (predict_debug model args train_progress l w2) as [[[] w3]|e]; reflexivity.
Qed.

(** Whenever a call with the debug mode enabled returns, the call with the
    debug mode disabled returns the same pair and leaves every generator
    in the same state. *)
Lemma predict_debug_returns_same (model : StableDiffusionModel)
  (batch : gmap string BatchValue) (args : TrainArgs)
  (train_progress : TrainProgress) (w w1 : World) (r : Tensor * Tensor) :
  predict model batch (set_debug_mode true args) train_progress w = Ok (r, w1) ->
  exists w0,
    predict model batch (set_debug_mode false args) train_progress w = Ok (r, w0)
    /\ default_generator w1 = default_generator w0
    /\ generators w1 = generators w0.
Proof.
  rewrite !predict_unfold, !predict_forward_debug_mode.
  destruct (predict_forward model batch args train_progress w) as [[l w2]|e];
    [|discriminate].
  cbn [debug_mode set_debug_mode]. rewrite predict_debug_debug_mode.
  destruct (predict_debug model args train_progress l w2) as [[u w3]|e] eqn:Hdebug;
    [|discriminate].
  intros [= <- <-].
  apply predict_debug_generators in Hdebug. destruct Hdebug as [Hdef Hgens].
  exists w2. auto.
Qed.

(** C5: on a batch whose latent is four-dimensional, with networks that
    return tensors of the shapes they are specified to return and a table
    of cumulative alphas covering the timestep range, a call of [predict]
    with the debug mode enabled ends as the call with it disabled does:
    with the same exception, or with the same pair of tensors, every
    generator - the default one and the seeded one - left in the same
    state, the enabled call having stored its inspection images and the
    disabled call none. *)
Theorem predict_debug_transparent (model : StableDiffusionModel)
  (batch : gmap string BatchValue) (args : TrainArgs)
  (train_progress : TrainProgress) (w : World) (N C H W T : nat) :
  (forall t, batch_tensor batch "latent_image" = Ok t -> shape t = [N; C; H; W]) ->
  (forall x n ts, shape (add_noise (noise_scheduler model) x n ts) = shape x) ->
  (forall x ts e d, shape (unet_forward (unet model) x ts e d) = [N; C; H; W]) ->
  shape (alphas_cumprod (noise_scheduler model)) = [T] ->
  timestep_high model args <= Z.of_nat T ->
  match predict model batch (set_debug_mode false args) train_progress w with
  | Ok (r, w0) =>
      exists w1,
        predict model batch (set_debug_mode true args) train_progress w = Ok (r, w1)
        /\ default_generator w1 = default_generator w0
        /\ generators w1 = generators w0
        /\ saved_images w0 = saved_images w
        /\ length (saved_images w1)
           = (length (saved_images w) + debug_image_count args)%nat
  | Raise e =>
      predict model batch (set_debug_mode true args) train_progress w = Raise e
  end.
Proof.
  intros Hlatent Hadd Hunet Halphas Hhigh.
  rewrite !predict_unfold, !predict_forward_debug_mode.
  destruct (predict_forward model batch args train_progress w) as [[l w2]|e] eqn:Hforward;
    [|reflexivity].
  cbn [debug_mode set_debug_mode]. rewrite predict_debug_debug_mode.
  pose proof (predict_forward_saved_images _ _ _ _ _ _ _ Hforward) as Hsaved.
  apply predict_forward_inv in Hforward.
  destruct Hforward
    as (Hli & Hscaled & Hcond & _ & (w3 & _ & Hts) & Hnoisy & _ & _ & (depth & _ & Hpred)).
  apply draw_timestep_inv in Hts. destruct Hts as (d0 & g' & Hd0 & Hts & _).
  apply randint_from_range in Hts. destruct Hts as (_ & Hlen & Hrange).
  specialize (Hlatent _ Hli).
  rewrite Hscaled in Hd0. cbn in Hd0. rewrite Hlatent in Hd0. injection Hd0 as <-.
  destruct (predict_debug_total model args train_progress l w2 N C H W T)
    as (images & Hdebug & Himages).
  - rewrite Hpred. apply Hunet.
  - rewrite Hnoisy, Hadd, Hscaled. exact Hlatent.
  - exact Hlen.
  - exact Halphas.
  - eapply Forall_impl; [exact Hrange|]. cbn. intros t Ht. lia.
  - intros Hc. rewrite Hc in Hcond. destruct Hcond as (c & _ & -> & _). eauto.
  - rewrite Hdebug. eexists. split; [reflexivity|]. cbn.
    rewrite length_app, Hsaved, Himages. auto.
Qed.


(** *** Reproducibility of the draws *)

Lemma draw_latent_noise_depends (args : TrainArgs) (t n1 n2 : Tensor) (g1 g2 : nat)
  (st : Generator) (w1 w1' w2 w2' : World) :
  generators w1 !! g1 = Some st -> generators w2 !! g2 = Some st ->
  draw_latent_noise args t g1 w1 = Ok (n1, w1') ->
  draw_latent_noise args t g2 w2 = Ok (n2, w2') ->
  n1 = n2.
Proof.
  intros Hg1 Hg2. unfold draw_latent_noise.
  destruct (gt0 (offset_noise_weight args)); intros Hrun1 Hrun2.
  - invert_run. subst.
    repeat match goal with
    | Hr : torch_randn _ _ _ _ = Ok _ |- _ =>
        apply torch_randn_ok in Hr; destruct Hr as (? & ? & ? & ?)
    end.
    subst. cbn [generators] in *.
    repeat match goal with
    | Hl : <[?g:=_]> (generators ?w) !! ?g = Some _ |- _ =>
        rewrite list_lookup_insert_eq in Hl by (eapply lookup_lt_Some; eassumption);
        injection Hl as <-
    end.
    repeat match goal with
    | Hl : generators ?w !! ?g = Some ?x, Hg : generators ?w !! ?g = Some st |- _ =>
        rewrite Hg in Hl; injection Hl as <-
    end.
    congruence.
  - apply torch_randn_ok in Hrun1, Hrun2.
    destruct Hrun1 as (s1 & Hs1 & -> & _), Hrun2 as (s2 & Hs2 & -> & _).
    congruence.
Qed.

Lemma seeded_world_generator (args : TrainArgs) (train_progress : TrainProgress)
  (w : World) :
  generators (seeded_world args train_progress w) !! length (generators w)
  = Some (manual_seed (global_step train_progress) (new_generator (train_device args))).
Proof.
  unfold seeded_world. cbn. rewrite lookup_app_r, Nat.sub_diag by lia. reflexivity.
Qed.

(** The noise of a step is the same in every world: it is drawn from the
    generator seeded with the global step. *)
Lemma latent_noise_reproducible (model : StableDiffusionModel)
  (batch : gmap string BatchValue) (args : TrainArgs)
  (train_progress : TrainProgress) (w1 w1' w2 w2' : World) (l1 l2 : Locals) :
  predict_forward model batch args train_progress w1 = Ok (l1, w1') ->
  predict_forward model batch args train_progress w2 = Ok (l2, w2') ->
  latent_noise l1 = latent_noise l2.
Proof.
  intros Hrun1 Hrun2.
  apply predict_forward_inv in Hrun1, Hrun2.
  destruct Hrun1 as (Hli1 & Hs1 & _ & Hg1 & (v1 & Hn1 & _) & _).
  destruct Hrun2 as (Hli2 & Hs2 & _ & Hg2 & (v2 & Hn2 & _) & _).
  assert (Heq : scaled_latent_image l1 = scaled_latent_image l2)
    by (rewrite Hs1, Hs2; congruence).
  rewrite Heq, Hg1 in Hn1. rewrite Hg2 in Hn2.
  eapply draw_latent_noise_depends; [| |exact Hn1|exact Hn2];
    apply seeded_world_generator.
Qed.

(** The timesteps of a step are read off the default generator of the
    world the call starts in; the global step does not enter. *)
Lemma timestep_from_default_generator (model : StableDiffusionModel)
  (batch : gmap string BatchValue) (args : TrainArgs)
  (train_progress : TrainProgress) (w w' : World) (l : Locals) :
  predict_forward model batch args train_progress w = Ok (l, w') ->
  timestep l
  = map (fun k => raw_at (default_generator w) k mod timestep_high model args)
        (seq 0 (length (timestep l)))
  /\ default_generator w'
     = Nat.iter (length (timestep l)) advance (default_generator w).
Proof.
  intros Hrun. apply predict_forward_inv in Hrun.
  destruct Hrun as (_ & _ & _ & _ & (w2 & Hnoise & Hts) & _).
  apply draw_latent_noise_world in Hnoise. destruct Hnoise as [Hdef _].
  apply draw_timestep_inv in Hts. destruct Hts as (d0 & g' & _ & Hts & ->).
  pose proof (randint_from_range _ _ _ _ _ _ Hts) as (_ & Hlen & _).
  unfold randint_from in Hts.
  destruct (timestep_high model args <=? 0); [discriminate|].
  injection Hts as <- <-. rewrite length_map, length_seq. cbn.
  rewrite Hdef. cbn. split; [|reflexivity].
  apply map_ext. intros k. rewrite Z.sub_0_r. reflexivity.
Qed.

End Predict.

(** *** The statements above on a concrete step *)

Section Examples.
Import Instances.

(** What the run from [example_world] and the run after it compute. *)
Lemma example_runs :
  match example_run example_world with
  | Ok (l1, w1) =>
      timestep l1 = [524]
      /\ @shape QFloat (latent_image l1) = [1; 2; 2; 2]%nat
      /\ @shape QFloat (latent_input l1) = [1; 5; 2; 2]%nat
      /\ match example_run w1 with
         | Ok (l2, _) => timestep l2 = [59]
         | Raise _ => False
         end
  | Raise _ => False
  end.
Proof. vm_compute. repeat split; reflexivity. Qed.

(** C1: two consecutive calls of the main path of [predict] with the same
    model, batch, arguments and global step draw the same noise but select
    different timesteps (524, then 59): the timesteps come from the default
    generator, which the first call has advanced. *)
Theorem predict_timestep_not_reproducible :
  exists l1 w1 l2 w2,
    example_run example_world = Ok (l1, w1)
    /\ example_run w1 = Ok (l2, w2)
    /\ latent_noise l1 = latent_noise l2
    /\ timestep l1 = [524]
    /\ timestep l2 = [59].
Proof.
  pose proof example_runs as Hruns. unfold example_run in *.
  destruct (predict_forward example_model example_batch args_masked
              example_progress example_world) as [[l1 w1]|e1] eqn:Hrun1; [|contradiction].
  destruct Hruns as (Ht1 & _ & _ & Hruns).
  destruct (predict_forward example_model example_batch args_masked
              example_progress w1) as [[l2 w2]|e2] eqn:Hrun2; [|contradiction].
  exists l1, w1, l2, w2. repeat split; auto.
  exact (@latent_noise_reproducible QFloat LcgRng _ _ _ _ _ _ _ _ _ _ Hrun1 Hrun2).
Qed.

Lemma latent_input_assembly_witness :
  exists l w',
    example_run example_world = Ok (l, w')
    /\ (exists depth,
          predicted_latent_noise l
          = unet_forward (unet example_model) (latent_input l) (timestep l)
              (text_encoder_output l) depth)
    /\ @shape QFloat (latent_input l) !! 1%nat = Some 5%nat.
Proof.
  pose proof example_runs as Hruns. unfold example_run in *.
  destruct (predict_forward example_model example_batch args_masked
              example_progress example_world) as [[l w']|e] eqn:Hrun; [|contradiction].
  destruct Hruns as (_ & _ & Hshape & _).
  exists l, w'. split; [reflexivity|].
  destruct (@latent_input_assembly QFloat LcgRng example_model example_batch
              args_masked example_progress example_world w' l Hrun)
    as (Hunet & mask & conditioning & cl & cm & cc & _ & _ & _ & _ & _ & _ & Hch & _).
  split; [exact Hunet|]. rewrite Hshape. reflexivity.
Defined.


Lemma latent_noise_offset_witness :
  exists l w',
    example_run example_world = Ok (l, w')
    /\ @shape QFloat (latent_image l) = [1; 2; 2; 2]%nat
    /\ @shape QFloat (latent_noise l) = [1; 2; 2; 2]%nat
    /\ @item QFloat (latent_noise l) [0; 1; 1; 0]%nat = (6195000 # 10000000)%Q.
Proof.
  pose proof example_runs as Hruns. unfold example_run in *.
  destruct (predict_forward example_model example_batch args_masked
              example_progress example_world) as [[l w']|e] eqn:Hrun; [|contradiction].
  destruct Hruns as (_ & Hlatent & _).
  exists l, w'. split; [reflexivity|]. split; [exact Hlatent|].
  destruct (@latent_noise_offset QFloat LcgRng example_model example_batch args_masked
              example_progress example_world w' l 1 2 2 2 Hrun Hlatent)
    as (_ & _ & Hshape & Hitem).
  split; [exact Hshape|].
  rewrite (Hitem 0 1 1 0)%nat by lia. vm_compute. reflexivity.
Defined.

Lemma predict_debug_transparent_witness :
  (forall t, batch_tensor example_batch "latent_image" = Ok t ->
             @shape QFloat t = [1; 2; 2; 2]%nat)
  /\ (forall x n ts,
        @shape QFloat (add_noise (noise_scheduler example_model) x n ts) = shape x)
  /\ (forall x ts e d,
        @shape QFloat (unet_forward (unet example_model) x ts e d) = [1; 2; 2; 2]%nat)
  /\ @shape QFloat (alphas_cumprod (noise_scheduler example_model)) = [1000%nat]
  /\ timestep_high example_model args_masked <= Z.of_nat 1000
  /\ exists r w0 w1,
       @predict QFloat LcgRng example_model example_batch
         (set_debug_mode false args_masked) example_progress example_world = Ok (r, w0)
       /\ @predict QFloat LcgRng example_model example_batch
            (set_debug_mode true args_masked) example_progress example_world = Ok (r, w1)
       /\ default_generator w1 = default_generator w0
       /\ generators w1 = generators w0
       /\ saved_images w0 = []
       /\ length (saved_images w1) = 6%nat.
Proof.
  assert (Hlatent : forall t, batch_tensor example_batch "latent_image" = Ok t ->
                              @shape QFloat t = [1; 2; 2; 2]%nat).
  { intros t Ht. change (Ok example_latent = Ok t) in Ht. injection Ht as <-. reflexivity. }
  assert (Hhigh : timestep_high example_model args_masked <= Z.of_nat 1000)
    by (vm_compute; discriminate).
  split; [exact Hlatent|]. split; [reflexivity|]. split; [reflexivity|].
  split; [reflexivity|]. split; [exact Hhigh|].
  pose proof (@predict_debug_transparent QFloat LcgRng example_model example_batch
                args_masked example_progress example_world 1 2 2 2 1000
                Hlatent (fun _ _ _ => eq_refl) (fun _ _ _ _ => eq_refl) eq_refl Hhigh)
    as Hthm.
  destruct (@predict QFloat LcgRng example_model example_batch
              (set_debug_mode false args_masked) example_progress example_world)
    as [[r w0]|e] eqn:Hoff.
  - destruct Hthm as (w1 & Hon & Hdef & Hgens & Hsaved & Hlen).
    exists r, w0, w1. repeat split; assumption.
  - exfalso.
    assert (Hok : is_ok (@predict QFloat LcgRng example_model example_batch
                           (set_debug_mode false args_masked) example_progress
                           example_world) = true) by (vm_compute; reflexivity).
    rewrite Hoff in Hok. discriminate.
Defined.

End Examples.

End PredictProperties.

(** ** The entry point, continued *)

Module TrainProtocol.
Import Torch Train.

Section Main.
Context {FL : Float}.

(** X13: [main] absorbs an interruption only while [trainer.train()] runs.
    The calls it makes are [start], then [train], then [end], never more
    and never in another order; whenever [end] is called, [main] ends as
    [end] does; an interruption raised by [start] leaves [main] at once,
    with the exception. *)
Theorem main_call_protocol (args : TrainArgs)
  (new_trainer : TrainArgs -> FineTuneTrainer) :
  let calls := fst (main args new_trainer) in
  let result := snd (main args new_trainer) in
  (calls = [CallStart] \/ calls = [CallStart; CallTrain]
   \/ calls = [CallStart; CallTrain; CallEnd])
  /\ (In CallEnd calls <->
      start (new_trainer args) = Ok tt
      /\ (train (new_trainer args) = Ok tt
          \/ (train (new_trainer args) = Raise KeyboardInterrupt
              /\ backup_before_save args = true)))
  /\ (In CallEnd calls -> result = end_ (new_trainer args))
  /\ (forall e, start (new_trainer args) = Raise e ->
        calls = [CallStart] /\ result = Raise e).
Proof.
  unfold main.
  destruct (training_method args);
    destruct (start (new_trainer args)) as [[]|es];
    destruct (train (new_trainer args)) as [[]|[]];
    destruct (backup_before_save args); cbn;
    (repeat split; auto; try tauto; try congruence;
     try (intros; intuition congruence)).
Qed.

End Main.
End TrainProtocol.

(** ** [setup_model] and the optimizer *)

Module OptimizerProperties.
Import Torch StableDiffusionModel StableDiffusionFineTuneSetup.

Section Optimizer.
Context {FL : Float} {RG : Rng}.




(** X2: the parameters handed to the optimizer after [setup_model] are all
    trainable exactly when the text encoder is not trained, or its epoch
    limit is not reached, or it has no parameter: once the limit is
    reached the frozen parameters of the text encoder are still handed to
    the optimizer.  The parameters of the VAE are never among them. *)
Theorem create_parameters_trainable (model : StableDiffusionModel) (args : TrainArgs) :
  let m := fst (setup_model model args) in
  (Forall (fun p => requires_grad p = true) (create_parameters m args) <->
   (train_text_encoder args = false
    \/ epoch (train_progress model) < train_text_encoder_epochs args
    \/ te_parameters (text_encoder model) = []))
  /\ create_parameters m args
     = (if train_text_encoder args
        then requires_grad_ (epoch (train_progress model) <? train_text_encoder_epochs args)
               (te_parameters (text_encoder model))
        else [])
       ++ requires_grad_ true (unet_parameters (unet model)).
Proof.
  intros m.
  destruct (SetupModelProperties.setup_model_networks model args) as (Ht & _ & Hu).
  fold m in Ht, Hu. unfold create_parameters. rewrite Ht, Hu. cbn.
  assert (Hunet : Forall (fun p => requires_grad p = true)
                    (requires_grad_ true (unet_parameters (unet model))))
    by apply SetupModelProperties.requires_grad__spec.
  destruct (train_text_encoder args); cbn; [|split; [tauto | reflexivity]].
  split; [|reflexivity].
  rewrite Forall_app. split.
  - intros [Hte _]. right.
    destruct (te_parameters (text_encoder model)) as [|p ps]; [auto|left].
    cbn in Hte. apply Forall_cons in Hte. destruct Hte as [Hp _]. cbn in Hp.
    apply Z.ltb_lt. exact Hp.
  - intros [Hf | [Hlt | Hnil]]; [discriminate| |].
    + split; [|exact Hunet]. apply Z.ltb_lt in Hlt. rewrite Hlt.
      apply SetupModelProperties.requires_grad__spec.
    + rewrite Hnil. cbn. split; [constructor | exact Hunet].
Qed.

End Optimizer.
End OptimizerProperties.

(** ** [setup_train_device] and [setup_eval_device] *)

Module DeviceSetupProperties.
Import Torch StableDiffusionFineTuneSetupMethods.

Section Devices.
Context {FL : Float}.

(** X3: whatever [is_xformers_available()] answers and however the two
    attempts to enable memory-efficient attention end, [setup_train_device]
    places the networks first: text encoder and U-Net on the train device,
    the VAE on the train device in debug mode and on the temp device
    otherwise, a depth estimator on the temp device.  A failure of an
    attempt is printed and the setup goes on, so that the call returns with
    the three networks in training mode and gradient checkpointing enabled
    on the U-Net; only an interruption leaves the call, and then no network
    has been put in training mode by it.  The U-Net's attention is never
    attempted after the VAE's failed. *)
Theorem setup_train_device_outcome (self : Setup) (model : Networks) (args : TrainArgs)
  (xformers_available : bool) (enable_vae enable_unet : Res unit) :
  let out := setup_train_device self model args xformers_available enable_vae enable_unet in
  let m := fst (fst out) in
  let raised :=
    if xformers_available
    then match enable_vae with
         | Raise e => Some e
         | Ok _ => match enable_unet with Raise e => Some e | Ok _ => None end
         end
    else None in
  device (n_text_encoder m) = self_train_device self
  /\ device (n_unet m) = self_train_device self
  /\ device (n_vae m)
     = (if self_debug_mode self then self_train_device self else self_temp_device self)
  /\ option_map device (n_depth_estimator m)
     = option_map (fun _ => self_temp_device self) (n_depth_estimator model)
  /\ xformers (n_vae m)
     = xformers (n_vae model) || (xformers_available && is_ok enable_vae)
  /\ xformers (n_unet m)
     = xformers (n_unet model)
       || (xformers_available && is_ok enable_vae && is_ok enable_unet)
  /\ match raised with
     | Some KeyboardInterrupt =>
         snd out = Raise KeyboardInterrupt /\ snd (fst out) = []
         /\ training (n_text_encoder m) = training (n_text_encoder model)
         /\ training (n_vae m) = training (n_vae model)
         /\ training (n_unet m) = training (n_unet model)
     | _ =>
         snd out = Ok tt
         /\ snd (fst out) = match raised with Some e => [e] | None => [] end
         /\ training (n_text_encoder m) = true
         /\ training (n_vae m) = true
         /\ training (n_unet m) = true
         /\ gradient_checkpointing (n_unet m) = true
         /\ gradient_checkpointing (n_text_encoder m)
            = gradient_checkpointing (n_text_encoder model) || train_text_encoder args
     end.
Proof.
  unfold setup_train_device.
  destruct xformers_available, enable_vae as [[]|[]], enable_unet as [[]|[]],
    (train_text_encoder args), (n_depth_estimator model);
    cbn; rewrite ?orb_true_r, ?orb_false_r; repeat split; reflexivity.
Qed.

(** X4: the two setups compose without memory of each other's placement:
    a call of [setup_train_device] that returns leaves the same networks
    whether or not [setup_eval_device] ran before it, and running it again
    changes nothing; [setup_eval_device] after it puts every network, the depth
    estimator included, on the train device and the three trained networks
    in evaluation mode, and keeps memory-efficient attention and gradient
    checkpointing as training enabled them. *)
Theorem device_setups_compose (self : Setup) (model : Networks) (args : TrainArgs)
  (xformers_available : bool) (enable_vae enable_unet : Res unit) :
  let train m := setup_train_device self m args xformers_available enable_vae enable_unet in
  let trained := fst (fst (train model)) in
  (snd (train model) = Ok tt ->
   train (setup_eval_device self model) = train model
   /\ fst (fst (train trained)) = trained)
  /\ n_text_encoder (setup_eval_device self trained)
     = set_training false (to (self_train_device self) (n_text_encoder trained))
  /\ device (n_vae (setup_eval_device self trained)) = self_train_device self
  /\ training (n_vae (setup_eval_device self trained)) = false
  /\ training (n_unet (setup_eval_device self trained)) = false
  /\ xformers (n_unet (setup_eval_device self trained)) = xformers (n_unet trained)
  /\ gradient_checkpointing (n_unet (setup_eval_device self trained))
     = gradient_checkpointing (n_unet trained)
  /\ option_map device (n_depth_estimator (setup_eval_device self trained))
     = option_map (fun _ => self_train_device self) (n_depth_estimator model).
Proof.
  unfold setup_train_device, setup_eval_device.
  destruct xformers_available, enable_vae as [[]|e1], enable_unet as [[]|e2],
    (train_text_encoder args), (n_depth_estimator model);
    cbn;
    try destruct (is_Exception e1) eqn:He1;
    try destruct (is_Exception e2) eqn:He2;
    cbn; repeat split; try reflexivity; intros; try discriminate; reflexivity.
Qed.

End Devices.
End DeviceSetupProperties.

(** ** The training-step predictor, continued *)

Module PredictEdgeProperties.
Import Torch StableDiffusionModel StableDiffusionFineTuneSetup PredictProperties DebugImages.

Section Predict.
Context {FL : Float} {RG : Rng}.

(** X5: when [int(num_train_timesteps * max_noising_strength)] is not
    positive - a [max_noising_strength] of 0, or a product below 1 - the
    range of timesteps is empty and no call of [predict] returns, whatever
    the batch and the state of the generators. *)
Theorem predict_empty_timestep_range (model : StableDiffusionModel)
  (batch : gmap string BatchValue) (args : TrainArgs)
  (train_progress : TrainProgress) (w : World) :
  timestep_high model args <= 0 ->
  is_ok (predict model batch args train_progress w) = false.
Proof.
  intros Hhigh. rewrite predict_unfold.
  destruct (predict_forward model batch args train_progress w) as [[l w2]|e] eqn:Hrun;
    [|reflexivity].
  exfalso. apply predict_forward_inv in Hrun.
  destruct Hrun as (_ & _ & _ & _ & (w3 & _ & Hts) & _).
  apply draw_timestep_inv in Hts. destruct Hts as (d0 & g' & _ & Hts & _).
  apply randint_from_range in Hts. lia.
Qed.

(** X6: the keys a returning call of [predict] has read from the batch:
    [latent_image] and [tokens] always, [latent_conditioning_image] for a
    model type with conditioning-image input, [latent_mask] only when the
    model type has both mask and conditioning-image input, and
    [latent_depth] for a model type with depth input - which is then the
    extra argument of the denoising network, called without it otherwise. *)
Theorem predict_batch_keys (model : StableDiffusionModel)
  (batch : gmap string BatchValue) (args : TrainArgs)
  (train_progress : TrainProgress) (w w' : World) (l : Locals) :
  predict_forward model batch args train_progress w = Ok (l, w') ->
  batch !! "latent_image"%string = Some (BTensor (latent_image l))
  /\ (exists tokens, batch !! "tokens"%string = Some (BTokens tokens)
        /\ text_encoder_output l = te_forward (text_encoder model) tokens)
  /\ (has_conditioning_image_input (model_type args) = true ->
      exists c, batch !! "latent_conditioning_image"%string = Some (BTensor c)
        /\ latent_conditioning_image l = Some c)
  /\ (has_mask_input (model_type args) && has_conditioning_image_input (model_type args)
      = true ->
      exists m, batch !! "latent_mask"%string = Some (BTensor m))
  /\ (if has_depth_input (model_type args)
      then exists d, batch !! "latent_depth"%string = Some (BTensor d)
             /\ predicted_latent_noise l
                = unet_forward (unet model) (latent_input l) (timestep l)
                    (text_encoder_output l) (Some d)
      else predicted_latent_noise l
           = unet_forward (unet model) (latent_input l) (timestep l)
               (text_encoder_output l) None).
Proof.
  assert (Hbt : forall key t, batch_tensor batch key = Ok t ->
                              batch !! key = Some (BTensor t)).
  { intros key t. unfold batch_tensor.
    destruct (batch !! key) as [[]|]; intros [= ->]; reflexivity. }
  intros Hrun. apply predict_forward_inv in Hrun.
  destruct Hrun as (Hli & _ & Hcond & _ & _ & _ & (tokens & Htok & Hte) & Hinput
                    & (depth & Hdepth & Hpred)).
  split; [auto|]. split.
  { exists tokens. split; [|exact Hte]. unfold batch_tokens in Htok.
    destruct (batch !! "tokens"%string) as [[]|]; try discriminate.
    injection Htok as ->. reflexivity. }
  split.
  { intros Hc. rewrite Hc in Hcond. destruct Hcond as (c & Hbc & Hlc & _). eauto. }
  split.
  { intros Hm. unfold assemble_latent_input in Hinput. rewrite Hm in Hinput.
    destruct (batch_tensor batch "latent_mask") as [m|] eqn:Hmask; [|discriminate].
    eauto. }
  unfold depth_input in Hdepth.
  destruct (has_depth_input (model_type args)).
  - destruct (batch_tensor batch "latent_depth") as [d|] eqn:Hd; [|discriminate].
    injection Hdepth as <-. eauto.
  - injection Hdepth as <-. exact Hpred.
Qed.

(** X7: for a fixed batch, fixed arguments and a fixed global step, the
    latent noise of a step does not depend on the world the call starts
    in: neither the state of the default generator nor the generators
    created before enter it. *)
Theorem predict_noise_world_independent (model : StableDiffusionModel)
  (batch : gmap string BatchValue) (args : TrainArgs)
  (train_progress : TrainProgress) (w1 w1' w2 w2' : World) (r1 r2 : Tensor * Tensor) :
  predict model batch args train_progress w1 = Ok (r1, w1') ->
  predict model batch args train_progress w2 = Ok (r2, w2') ->
  snd r1 = snd r2.
Proof.
  rewrite !predict_unfold. intros Hrun1 Hrun2.
  destruct (predict_forward model batch args train_progress w1) as [[l1 v1]|] eqn:Hf1;
    [|discriminate].
  destruct (predict_forward model batch args train_progress w2) as [[l2 v2]|] eqn:Hf2;
    [|discriminate].
  pose proof (latent_noise_reproducible _ _ _ _ _ _ _ _ _ _ Hf1 Hf2) as Hnoise.
  assert (H1 : snd r1 = latent_noise l1).
  { destruct (debug_mode args); [|injection Hrun1 as <- _; reflexivity].
    destruct (predict_debug model args train_progress l1 v1) as [[u v]|]; [|discriminate].
    injection Hrun1 as <- _. reflexivity. }
  assert (H2 : snd r2 = latent_noise l2).
  { destruct (debug_mode args); [|injection Hrun2 as <- _; reflexivity].
    destruct (predict_debug model args train_progress l2 v2) as [[u v]|]; [|discriminate].
    injection Hrun2 as <- _. reflexivity. }
  congruence.
Qed.

Lemma draw_latent_noise_generators (args : TrainArgs) (t noise : Tensor)
  (gens : list Generator) (st : Generator) (w w' : World) :
  generators w = gens ++ [st] ->
  draw_latent_noise args t (length gens) w = Ok (noise, w') ->
  exists st', generators w' = gens ++ [st'].
Proof.
  intros Hgens. unfold draw_latent_noise.
  destruct (gt0 (offset_noise_weight args)); intros Hrun.
  - invert_run. subst.
    repeat match goal with
    | Hr : torch_randn _ _ _ _ = Ok _ |- _ =>
        apply torch_randn_ok in Hr; destruct Hr as (? & ? & ? & ?)
    end.
    subst. cbn. rewrite Hgens.
    rewrite !insert_app_r_alt, !Nat.sub_diag by lia. cbn. eauto.
  - apply torch_randn_ok in Hrun. destruct Hrun as (? & ? & ? & ->). cbn.
    rewrite Hgens, insert_app_r_alt, Nat.sub_diag by lia. cbn. eauto.
Qed.

(** X8: the timesteps of a step are the next raw draws of the default
    generator, one per sample, each reduced modulo
    [int(num_train_timesteps * max_noising_strength)]: the global step does
    not enter.  The call advances the default generator by exactly that
    many draws, leaves the generators created before it as they were and
    adds one, its seeded generator. *)
Theorem predict_timestep_source (model : StableDiffusionModel)
  (batch : gmap string BatchValue) (args : TrainArgs)
  (train_progress : TrainProgress) (w w' : World) (l : Locals) :
  predict_forward model batch args train_progress w = Ok (l, w') ->
  timestep l
  = map (fun k => raw_at (default_generator w) k mod timestep_high model args)
        (seq 0 (length (timestep l)))
  /\ default_generator w'
     = Nat.iter (length (timestep l)) advance (default_generator w)
  /\ exists st, generators w' = generators w ++ [st].
Proof.
  intros Hrun.
  destruct (timestep_from_default_generator _ _ _ _ _ _ _ Hrun) as [Hts Hdef].
  split; [exact Hts|]. split; [exact Hdef|].
  apply predict_forward_inv in Hrun.
  destruct Hrun as (_ & _ & _ & Hgen & (w2 & Hnoise & Hdraw) & _).
  rewrite Hgen in Hnoise.
  eapply draw_latent_noise_generators in Hnoise; [|reflexivity].
  destruct Hnoise as [st Hst].
  apply draw_timestep_inv in Hdraw. destruct Hdraw as (d0 & g' & _ & _ & ->).
  cbn. eauto.
Qed.

(** X9: a call of [predict] in debug mode that returns has stored, after
    the images already there, the five inspection images of the step
    under [debug_dir + "/training_batches"] - a sixth for a model type
    with conditioning-image input - in this order; [4-predicted_image]
    and [5-image] carry the global step of the model's own progress, the
    others the global step of the progress passed to the call. *)
Theorem predict_debug_images (model : StableDiffusionModel)
  (batch : gmap string BatchValue) (args : TrainArgs)
  (train_progress : TrainProgress) (w w' : World) (r : Tensor * Tensor) :
  predict model batch args train_progress w = Ok (r, w') ->
  debug_mode args = true ->
  let dir := (debug_dir args +:+ "/training_batches")%string in
  let step := global_step train_progress in
  let model_step := global_step (StableDiffusionModel.train_progress model) in
  map image_label (saved_images w')
  = map image_label (saved_images w)
    ++ [(dir, "1-noise"%string, step);
        (dir, "2-predicted_noise"%string, step);
        (dir, "3-noisy_image"%string, step);
        (dir, "4-predicted_image"%string, model_step);
        (dir, "5-image"%string, model_step)]
    ++ (if has_conditioning_image_input (model_type args)
        then [(dir, "6-conditioning_image"%string, step)] else []).
Proof.
  rewrite predict_unfold. intros Hrun Hdebug. rewrite Hdebug in Hrun.
  destruct (predict_forward model batch args train_progress w) as [[l w2]|] eqn:Hf;
    [|discriminate].
  apply predict_forward_saved_images in Hf.
  destruct (predict_debug model args train_progress l w2) as [[u w3]|] eqn:Hd;
    [|discriminate].
  injection Hrun as _ <-. rewrite <- Hf. clear Hf.
  unfold predict_debug in Hd. rewrite !save_image_bind in Hd.
  apply bind_ok in Hd. destruct Hd as (a1 & v1 & H1 & Hd).
  apply lift_ok in H1. destruct H1 as [_ ->].
  apply bind_ok in Hd. destruct Hd as (a2 & v2 & H2 & Hd).
  apply lift_ok in H2. destruct H2 as [_ ->].
  apply bind_ok in Hd. destruct Hd as (a3 & v3 & H3 & Hd).
  apply lift_ok in H3. destruct H3 as [_ ->].
  apply bind_ok in Hd. destruct Hd as (a4 & v4 & H4 & Hd).
  apply lift_ok in H4. destruct H4 as [_ ->].
  apply bind_ok in Hd. destruct Hd as (a5 & v5 & H5 & Hd).
  apply lift_ok in H5. destruct H5 as [_ ->].
  rewrite !save_image_bind in Hd.
  destruct (has_conditioning_image_input (model_type args)).
  - destruct (latent_conditioning_image l); [|discriminate].
    unfold save_image in Hd. injection Hd as _ <-.
    cbn [saved_images]. rewrite !map_app. cbn. rewrite <- !app_assoc. reflexivity.
  - unfold ret in Hd. injection Hd as _ <-.
    cbn [saved_images]. rewrite !map_app. cbn. rewrite <- !app_assoc.
    reflexivity.
Qed.

End Predict.
End PredictEdgeProperties.

(** ** The data-loader pipeline, continued *)

Module PipelineFieldProperties.
Import Torch StableDiffusionModel Mgds MgdsStableDiffusionFineTuneVaeDataLoader
  PipelineFields.

Section Pipeline.
Context {FL : Float}.

(** Unfold the pipeline of [create_dataset] down to its switches. *)
Ltac unfold_pipeline :=
  unfold create_dataset, flatten_stages, __enumerate_input_modules,
    __load_input_modules, __mask_augmentation_modules, __aspect_bucketing_in,
    __crop_modules, __augmentation_modules, __preparation_modules,
    __cache_modules, __output_modules, collect_paths, mask_path, image_sample.

(** Evaluate the dangling fields of a pipeline whose switches are known. *)
Ltac compute_dangling :=
  repeat match goal with
  | |- context [dangling ?a ?ms] =>
      let v := eval vm_compute in (dangling a ms) in
      change (dangling a ms) with v
  end.

(** X10: in the pipeline [create_dataset] builds, every field a module
    reads is provided by the concepts or written by a module before it
    exactly when aspect-ratio bucketing is enabled and, in debug mode,
    masked training is too.  Otherwise the cropping and batch-sorting
    modules read [scale_resolution] and [crop_resolution], which only the
    bucketing module writes, or the debug image saver reads [mask], which
    only masked training loads; no other field is ever missing. *)
Theorem pipeline_fields_provided (args : TrainArgs) (model : StableDiffusionModel)
  (concepts : list (gmap string string)) (train_progress : TrainProgress) :
  let pipeline :=
    flatten_stages (definition (create_dataset args model concepts train_progress)) in
  (dangling concept_fields pipeline = [] <->
   aspect_ratio_bucketing args = true
   /\ (debug_mode args = true -> masked_training args = true))
  /\ (In "scale_resolution"%string (dangling concept_fields pipeline) <->
      aspect_ratio_bucketing args = false)
  /\ (In "mask"%string (dangling concept_fields pipeline) <->
      debug_mode args = true /\ masked_training args = false)
  /\ Forall (fun f => In f ["scale_resolution"; "crop_resolution"; "mask"]%string)
       (dangling concept_fields pipeline).
Proof.
  unfold_pipeline.
  destruct (masked_training args), (random_rotate_and_crop args),
    (aspect_ratio_bucketing args), (latent_caching args), (debug_mode args);
    cbv zeta; compute_dangling; cbn [In];
    (split; [|split; [|split]]);
    try (repeat constructor; auto 10; fail);
    (split; [intros Hd | intros Hc]);
    try discriminate; try reflexivity; auto;
    try (destruct Hc as [Ha Hb]; try discriminate Ha; try discriminate Hb;
         try (specialize (Hb eq_refl); discriminate Hb));
    try (split; [reflexivity | intros; reflexivity || discriminate]);
    try (split; reflexivity);
    try (repeat (destruct Hd as [Hd|Hd]; try discriminate Hd); contradiction);
    auto 10.
Qed.

(** X11: with latent caching enabled, the modules after the disk cache
    read only fields the cache holds or fields written after it - so that
    a cached sample needs nothing from the modules before the cache -
    exactly when the debug mode is off: the debug image saver reads
    [mask], which the cache does not hold.  Without latent caching the
    pipeline has no disk cache. *)
Theorem pipeline_cache_closed (args : TrainArgs) (model : StableDiffusionModel)
  (concepts : list (gmap string string)) (train_progress : TrainProgress) :
  let pipeline :=
    flatten_stages (definition (create_dataset args model concepts train_progress)) in
  match after_cache pipeline with
  | Some (cached, rest) =>
      latent_caching args = true
      /\ cached
         = ["image"%string; "latent_image_distribution"%string]
           ++ (if masked_training args then ["latent_mask"%string] else [])
           ++ ["crop_resolution"%string; "image_path"%string]
      /\ (dangling cached rest = [] <-> debug_mode args = false)
      /\ Forall (fun f => f = "mask"%string) (dangling cached rest)
  | None => latent_caching args = false
  end.
Proof.
  unfold_pipeline.
  destruct (masked_training args), (random_rotate_and_crop args),
    (aspect_ratio_bucketing args), (latent_caching args), (debug_mode args);
    cbv zeta; cbn [after_cache app]; try reflexivity;
    compute_dangling;
    (split; [reflexivity|]; split; [reflexivity|]; split;
     [split; intros; try discriminate; reflexivity | repeat constructor]).
Qed.

End Pipeline.
End PipelineFieldProperties.

(** ** Mask files and the collected images *)

Module MaskPathProperties.
Import Torch StableDiffusionModel Mgds MgdsStableDiffusionFineTuneVaeDataLoader.

Lemma list_ascii_of_string_app (s t : string) :
  list_ascii_of_string (s +:+ t)
  = list_ascii_of_string s ++ list_ascii_of_string t.
Proof. induction s as [|c s IH]; simpl; [reflexivity | f_equal; exact IH]. Qed.

Lemma list_ascii_of_string_length (s : string) :
  length (list_ascii_of_string s) = String.length s.
Proof. induction s as [|c s IH]; simpl; [reflexivity | f_equal; exact IH]. Qed.

Lemma list_ascii_of_string_substring (n m : nat) (s : string) :
  list_ascii_of_string (String.substring n m s)
  = take m (drop n (list_ascii_of_string s)).
Proof.
  revert n m. induction s as [|c s IH]; intros [|n] [|m]; simpl; try reflexivity;
    rewrite ?IH; reflexivity.
Qed.

Lemma list_ascii_of_string_inj (s t : string) :
  list_ascii_of_string s = list_ascii_of_string t -> s = t.
Proof.
  intros Heq. rewrite <- (string_of_list_ascii_of_string s),
    <- (string_of_list_ascii_of_string t), Heq. reflexivity.
Qed.

Lemma rfind_from_app (c : ascii) (l1 l2 : list ascii) (i : nat) (last : option nat) :
  Path.rfind_from c (l1 ++ l2) i last
  = Path.rfind_from c l2 (i + length l1) (Path.rfind_from c l1 i last).
Proof.
  revert i last. induction l1 as [|x l1 IH]; intros i last; cbn.
  - rewrite Nat.add_0_r. reflexivity.
  - rewrite IH. f_equal. lia.
Qed.

Lemma rfind_from_bound (c : ascii) (l : list ascii) (i k : nat) (last : option nat) :
  Path.rfind_from c l i last = Some k ->
  last = Some k \/ (i <= k < i + length l)%nat.
Proof.
  revert i last. induction l as [|x l IH]; intros i last; cbn.
  - auto.
  - intros Hr. apply IH in Hr. destruct Hr as [Hr | Hr]; [|right; lia].
    destruct (Ascii.eqb x c); [|auto]. injection Hr as <-. right. lia.
Qed.

Lemma filename_index_le (s : string) :
  (Path.filename_index s <= String.length s)%nat.
Proof.
  unfold Path.filename_index, Path.rfind.
  destruct (Path.rfind_from "/" (list_ascii_of_string s) 0 None) as [k|] eqn:Hk;
    [|lia].
  apply rfind_from_bound in Hk. rewrite list_ascii_of_string_length in Hk.
  destruct Hk as [Hk | Hk]; [discriminate | lia].
Qed.

(** The extension of a name ending in [-masklabel.png] is [.png]. *)
Lemma splitext_masklabel (s : string) :
  Path.splitext (s +:+ "-masklabel.png") = ((s +:+ "-masklabel")%string, ".png"%string).
Proof.
  pose proof (filename_index_le s) as Hfi.
  assert (Hdot : Path.rfind "." (s +:+ "-masklabel.png") = Some (String.length s + 10)%nat).
  { unfold Path.rfind. rewrite list_ascii_of_string_app, rfind_from_app.
    rewrite list_ascii_of_string_length. cbn. f_equal. lia. }
  assert (Hsep : Path.filename_index (s +:+ "-masklabel.png") = Path.filename_index s).
  { unfold Path.filename_index, Path.rfind.
    rewrite list_ascii_of_string_app, rfind_from_app. reflexivity. }
  unfold Path.splitext. rewrite Hdot, Hsep.
  assert (Hle : (Path.filename_index s <=? String.length s + 10)%nat = true)
    by (apply Nat.leb_le; lia).
  rewrite Hle. cbn [andb].
  assert (Hex : existsb (fun c => negb (Ascii.eqb c "."))
            (list_ascii_of_string
               (String.substring (Path.filename_index s)
                  (String.length s + 10 - Path.filename_index s)
                  (s +:+ "-masklabel.png"))) = true).
  { rewrite list_ascii_of_string_substring, list_ascii_of_string_app.
    rewrite drop_app_le by (rewrite list_ascii_of_string_length; exact Hfi).
    rewrite take_app_ge by (rewrite length_drop, list_ascii_of_string_length; lia).
    rewrite existsb_app. apply orb_true_iff. right.
    rewrite length_drop, list_ascii_of_string_length.
    replace (String.length s + 10 - Path.filename_index s
             - (String.length s - Path.filename_index s))%nat with 10%nat by lia.
    reflexivity. }
  rewrite Hex. f_equal.
  - apply list_ascii_of_string_inj.
    rewrite list_ascii_of_string_substring, !list_ascii_of_string_app, drop_0.
    rewrite take_app_ge by (rewrite list_ascii_of_string_length; lia).
    rewrite list_ascii_of_string_length.
    replace (String.length s + 10 - String.length s)%nat with 10%nat by lia.
    reflexivity.
  - apply list_ascii_of_string_inj.
    rewrite list_ascii_of_string_substring, list_ascii_of_string_app.
    rewrite drop_app_ge by (rewrite list_ascii_of_string_length; lia).
    rewrite list_ascii_of_string_length.
    replace (String.length s + 10 - String.length s)%nat with 10%nat by lia.
    assert (Hlen : String.length (s +:+ "-masklabel.png") = (String.length s + 14)%nat).
    { rewrite <- !list_ascii_of_string_length, list_ascii_of_string_app, length_app.
      reflexivity. }
    rewrite Hlen.
    replace (String.length s + 14 - (String.length s + 10))%nat with 4%nat by lia.
    reflexivity.
Qed.

Lemma endswith_masklabel (s : string) :
  Path.endswith (s +:+ "-masklabel") "-masklabel" = true.
Proof.
  unfold Path.endswith.
  assert (Hlen : String.length (s +:+ "-masklabel") = (String.length s + 10)%nat).
  { rewrite <- !list_ascii_of_string_length, list_ascii_of_string_app, length_app.
    reflexivity. }
  rewrite Hlen. apply andb_true_iff. split; [apply Nat.leb_le; cbn; lia|].
  apply String.eqb_eq. apply list_ascii_of_string_inj.
  rewrite list_ascii_of_string_substring, list_ascii_of_string_app.
  change (String.length "-masklabel") with 10%nat.
  rewrite drop_app_ge by (rewrite list_ascii_of_string_length; lia).
  rewrite list_ascii_of_string_length.
  replace (String.length s + 10 - 10 - String.length s)%nat with 0%nat by lia.
  reflexivity.
Qed.

Section Masks.
Context {FL : Float}.

(** X12: the mask path the pipeline derives for a path - whatever the
    path - has the extension [.png] and a name ending in [-masklabel], so
    the module that collects the images never collects it: a mask file is
    never loaded as a training image, although [.png] is a supported image
    extension. *)
Theorem mask_path_never_collected (p : string) :
  let mask := modify_path "-masklabel" (Some ".png"%string) p in
  Path.splitext mask = ((fst (Path.splitext p) +:+ "-masklabel")%string, ".png"%string)
  /\ In (snd (Path.splitext mask)) supported_extensions
  /\ collects collect_paths mask = false.
Proof.
  cbn zeta. unfold modify_path.
  change ("-masklabel" +:+ ".png")%string with "-masklabel.png"%string.
  rewrite splitext_masklabel. split; [reflexivity|]. split.
  - cbn. auto 10.
  - unfold collects, collect_paths, has_postfix.
    rewrite splitext_masklabel. cbn [fst snd existsb].
    rewrite endswith_masklabel. cbn. reflexivity.
Qed.

End Masks.
End MaskPathProperties.

(** ** The Sana sampler, continued *)

Module SanaSamplerBaseProperties.
Import Torch SanaSampler SanaSamplerBase.

Section Sampler.
Context {FL : Float} {RG : Rng} {Image : Type}.

Local Abbreviation Event := (@Event Image).
Local Abbreviation State := (@State FL RG Image).
Local Abbreviation Sampler := (Sampler (Image := Image)).

Local Abbreviation reports := (reports (Image := Image)).

Lemma denoise_step_events (self : Sampler) (lib : Library) (e m : Tensor)
  (cfg_scale cfg_rescale : F) (n i : nat) (t : Z) (latent : Tensor) (s : State) :
  let out := denoise_step self lib e m cfg_scale cfg_rescale n i t latent s in
  events (snd out)
  = events s ++ (if is_ok (fst out) then reports n i 1 else []).
Proof.
  unfold denoise_step, sm_bind, sm_lift, emit, sm_ret. cbv beta zeta.
  destruct (concat [latent; latent] 0) as [x|];
    cbn [fst snd is_ok events]; [|rewrite app_nil_r; reflexivity].
  destruct (shape_at x 0) as [b|];
    cbn [fst snd is_ok events]; [|rewrite app_nil_r; reflexivity].
  destruct (transformer _ _ _ _ _) as [np|];
    cbn [fst snd is_ok events]; [|rewrite app_nil_r; reflexivity].
  destruct (guide _ _ _ _) as [g|];
    cbn [fst snd is_ok events]; [|rewrite app_nil_r; reflexivity].
  destruct (step _ _ _ _ _) as [[t' g']|];
    cbn [fst snd is_ok events]; [|rewrite app_nil_r; reflexivity].
  reflexivity.
Qed.

Lemma denoise_loop_events (self : Sampler) (lib : Library) (e m : Tensor)
  (cfg_scale cfg_rescale : F) (n : nat) (ts : list Z) :
  forall (i : nat) (latent : Tensor) (s : State),
    let out := denoise_loop self lib e m cfg_scale cfg_rescale n i ts latent s in
    exists k, (k <= length ts)%nat
      /\ events (snd out) = events s ++ reports n i k
      /\ (is_ok (fst out) = true -> k = length ts).
Proof.
  induction ts as [|t ts IH]; intros i latent s; cbn.
  - exists 0%nat. cbn. rewrite app_nil_r. auto.
  - unfold sm_bind.
    pose proof (denoise_step_events self lib e m cfg_scale cfg_rescale n i t latent s)
      as Hstep. cbn zeta in Hstep.
    destruct (denoise_step self lib e m cfg_scale cfg_rescale n i t latent s)
      as [[latent'|err] s1]; cbn in Hstep |- *.
    + destruct (IH (S i) latent' s1) as (k & Hk & Hev & Hok).
      exists (S k). split; [lia|]. split.
      * rewrite Hev, Hstep. unfold reports. cbn. rewrite <- app_assoc. reflexivity.
      * intros Hr. f_equal. apply Hok. exact Hr.
    + exists 0%nat. split; [lia|]. split; [|discriminate].
      rewrite Hstep. reflexivity.
Qed.

Ltac stopped :=
  cbn [fst snd is_ok events generator]; rewrite <- ?app_assoc;
  eexists _, _; split; [reflexivity|]; split; [|discriminate];
  cbn [app]; rewrite <- ?app_assoc; cbn [app]; reflexivity.

Ltac finished :=
  cbn [fst snd is_ok events generator]; rewrite <- ?app_assoc;
  eexists _, []; split; [reflexivity|]; split; [|reflexivity];
  cbn [app]; rewrite <- ?app_assoc, ?app_nil_r; cbn [app]; reflexivity.

(** The events of a call: a beginning of [full_run], all of it when the
    call returns. *)
Lemma sample_base_events (self : Sampler) (lib : Library)
  (prompt negative_prompt : string) (height width seed : Z) (random_seed : bool)
  (diffusion_steps : Z) (cfg_scale : F) (noise_scheduler : string) (cfg_rescale : F)
  (text_encoder_layer_skip : Z) (force_last_timestep : bool) (s : State) :
  let out :=
    __sample_base self lib prompt negative_prompt height width seed random_seed
      diffusion_steps cfg_scale noise_scheduler cfg_rescale text_encoder_layer_skip
      force_last_timestep s in
  let n := length (sample_timesteps self diffusion_steps force_last_timestep) in
  exists new rest,
    events (snd out) = events s ++ new
    /\ full_run self n = new ++ rest
    /\ (is_ok (fst out) = true -> rest = []).
Proof.
  cbn zeta. unfold __sample_base.
  set (ts := sample_timesteps self diffusion_steps force_last_timestep).
  unfold sm_bind, sm_lift, emit, sm_ret, sm_randn, full_run. cbv beta zeta.
  fold (reports (length ts) 0 (length ts)).
  cbn [fst snd is_ok events generator].
  destruct (encode_text _ prompt _ _ _) as [pos|]; [|stopped].
  destruct (encode_text _ negative_prompt _ _ _) as [neg|]; [|stopped].
  destruct (concat [fst neg; fst pos] 0) as [ce|]; [|stopped].
  destruct (concat [snd neg; snd pos] 0) as [cm|]; [|stopped].
  cbn [fst snd is_ok events generator].
  destruct (size_of _) as [size|]; [|stopped].
  destruct (randn_from size "float32" _) as [noise g].
  cbn [fst snd is_ok events generator].
  match goal with
  | |- context [denoise_loop ?a ?b ?c ?d ?e ?f ?n ?i ?l ?lat ?st] =>
      pose proof (denoise_loop_events a b c d e f n l i lat st) as Hloop;
      cbn zeta in Hloop;
      destruct (denoise_loop a b c d e f n i l lat st) as [[latent|err] s1]
  end; cbn [fst snd is_ok events generator] in Hloop |- *;
    destruct Hloop as (k & Hk & Hev & Hok).
  2:{ rewrite Hev. rewrite <- !app_assoc.
      eexists _, (reports (length ts) k (length ts - k) ++ _).
      split; [reflexivity|]. split; [|discriminate].
      cbn. do 4 f_equal. rewrite app_assoc. f_equal.
      unfold reports. rewrite <- map_app, <- seq_app. do 2 f_equal. lia. }
  specialize (Hok eq_refl). subst k. rewrite Hev. clear Hev.
  destruct (vae_decode _ _) as [image|]; [|stopped].
  destruct (shape_at image 0) as [b|]; [|stopped].
  destruct (postprocess _ _ _) as [|first images]; finished.
Qed.

Lemma progress_reports_app (es1 es2 : list Event) :
  progress_reports (es1 ++ es2) = progress_reports es1 ++ progress_reports es2.
Proof.
  induction es1 as [|e es1 IH]; [reflexivity|].
  destruct e; cbn; rewrite ?IH; reflexivity.
Qed.

Lemma progress_reports_reports (n i k : nat) :
  progress_reports (reports n i k)
  = map (fun j => (Z.of_nat j + 1, Z.of_nat n)) (seq i k).
Proof.
  revert i. induction k as [|k IH]; intros i; [reflexivity|].
  cbn. f_equal. apply IH.
Qed.

Lemma progress_reports_full_run (self : Sampler) (n : nat) :
  progress_reports (full_run self n)
  = map (fun j => (Z.of_nat j + 1, Z.of_nat n)) (seq 0 n).
Proof.
  unfold full_run. fold (reports n 0 n). cbn.
  rewrite progress_reports_app, progress_reports_reports. cbn.
  apply app_nil_r.
Qed.

Lemma map_seq_prefix {A} (f : nat -> A) (n : nat) (l1 l2 : list A) :
  l1 ++ l2 = map f (seq 0 n) ->
  (length l1 <= n)%nat /\ l1 = map f (seq 0 (length l1)) /\ (l2 = [] -> length l1 = n).
Proof.
  intros Heq.
  assert (Hlen : (length l1 + length l2 = n)%nat).
  { rewrite <- length_app, Heq, length_map, length_seq. reflexivity. }
  split; [lia|]. split.
  - assert (Ht : take (length l1) (l1 ++ l2) = l1) by apply take_app_length.
    rewrite Heq in Ht. rewrite <- Ht at 1.
    rewrite firstn_map, take_seq. do 2 f_equal. lia.
  - intros ->. cbn in Hlen. lia.
Qed.

Lemma placement_after_reports (p : Placement) (n i k j : nat) :
  placement_after p (take j (reports n i k)) = p.
Proof.
  revert i j. induction k as [|k IH]; intros i j.
  - destruct j; reflexivity.
  - destruct j; [reflexivity|]. cbn. apply (IH (S i) j).
Qed.

Lemma placement_after_app (p : Placement) (es1 es2 : list Event) :
  placement_after p (es1 ++ es2) = placement_after (placement_after p es1) es2.
Proof. apply foldl_app. Qed.

(** The networks on the train device during a whole run, from networks on
    the temp device. *)
Lemma full_run_placement (self : Sampler) (n k : nat) :
  train_device self <> temp_device self ->
  let p := {| text_encoder_on := temp_device self;
              transformer_on := temp_device self;
              vae_on := temp_device self |} in
  (count_on (train_device self) (placement_after p (take k (full_run self n))) <= 1)%nat
  /\ placement_after p (full_run self n) = p.
Proof.
  intros Hne p. subst p.
  assert (Hself : String.eqb (train_device self) (train_device self) = true)
    by apply String.eqb_refl.
  assert (Hother : String.eqb (temp_device self) (train_device self) = false).
  { apply String.eqb_neq. congruence. }
  unfold full_run. fold (reports n 0 n). split.
  - rewrite !take_app, !placement_after_app, placement_after_reports.
    cbn [length].
    destruct k as [|[|[|[|k]]]];
      try (match goal with
           | |- context [take ?m [TransformerTo _; _; _; _]] =>
               replace m with 0%nat by lia
           end;
           cbn; unfold count_on; cbn; rewrite ?Hself, ?Hother; cbn; lia).
    replace (S (S (S (S k))) - 4)%nat with k by lia.
    destruct (k - length (reports n 0 n))%nat as [|[|[|[|m]]]];
      cbn; rewrite ?take_nil; unfold count_on; cbn; rewrite ?Hself, ?Hother; cbn; lia.
  - rewrite !placement_after_app.
    match goal with
    | |- context [placement_after ?q (reports n 0 n)] =>
        pose proof (placement_after_reports q n 0 n n) as Hr
    end.
    rewrite firstn_all2 in Hr
      by (unfold reports; rewrite length_map, length_seq; lia).
    rewrite Hr. reflexivity.
Qed.

Section Run.
Variables (self : Sampler) (lib : Library).
Variables (prompt negative_prompt : string) (height width seed : Z).
Variables (random_seed : bool) (diffusion_steps : Z) (cfg_scale : F).
Variables (noise_scheduler : string) (cfg_rescale : F).
Variables (text_encoder_layer_skip : Z) (force_last_timestep : bool).

(** X14 (SanaSampler.__sample_base): a call over [n] timesteps, the
    scheduler's with the last training timestep put first when
    [force_last_timestep] is set, reports its progress as (1, n), (2, n),
    ..., (k, n) in this order and nothing else; [k] is [n] when the call
    returns, and the number of steps that went through when it raises. *)
Theorem sample_base_progress (s : State) :
  let out :=
    __sample_base self lib prompt negative_prompt height width seed random_seed
      diffusion_steps cfg_scale noise_scheduler cfg_rescale text_encoder_layer_skip
      force_last_timestep s in
  let n := length (sample_timesteps self diffusion_steps force_last_timestep) in
  exists (new : list Event) (k : nat),
    events (snd out) = events s ++ new
    /\ (k <= n)%nat
    /\ progress_reports new = map (fun j => (Z.of_nat j + 1, Z.of_nat n)) (seq 0 k)
    /\ (is_ok (fst out) = true -> k = n).
Proof.
  cbn zeta.
  destruct (sample_base_events self lib prompt negative_prompt height width seed
              random_seed diffusion_steps cfg_scale noise_scheduler cfg_rescale
              text_encoder_layer_skip force_last_timestep s)
    as (new & rest & Hev & Hfull & Hok).
  pose proof (progress_reports_full_run self
                (length (sample_timesteps self diffusion_steps force_last_timestep)))
    as Hpr.
  rewrite Hfull, progress_reports_app in Hpr.
  apply map_seq_prefix in Hpr. destruct Hpr as (Hle & Hnew & Hall).
  exists new, (length (progress_reports new)).
  split; [exact Hev|]. split; [exact Hle|]. split; [exact Hnew|].
  intros Hr. apply Hall. rewrite (Hok Hr). reflexivity.
Qed.

(** X15 (SanaSampler.__sample_base): when the three networks are on the
    temp device before the call and the two devices differ, at every
    moment of the call at most one of the text encoder, the transformer
    and the VAE is on the train device, however the call ends; when it
    returns, the three are back on the temp device. *)
Theorem sample_base_placement (s : State) (p : Placement) :
  train_device self <> temp_device self ->
  text_encoder_on p = temp_device self ->
  transformer_on p = temp_device self ->
  vae_on p = temp_device self ->
  let out :=
    __sample_base self lib prompt negative_prompt height width seed random_seed
      diffusion_steps cfg_scale noise_scheduler cfg_rescale text_encoder_layer_skip
      force_last_timestep s in
  exists new : list Event,
    events (snd out) = events s ++ new
    /\ (forall k : nat,
          (count_on (train_device self) (placement_after p (take k new)) <= 1)%nat)
    /\ (is_ok (fst out) = true -> placement_after p new = p).
Proof.
  intros Hne Hte Htr Hvae. cbn zeta.
  destruct p as [te tr vae]. cbn in Hte, Htr, Hvae. subst te tr vae.
  destruct (sample_base_events self lib prompt negative_prompt height width seed
              random_seed diffusion_steps cfg_scale noise_scheduler cfg_rescale
              text_encoder_layer_skip force_last_timestep s)
    as (new & rest & Hev & Hfull & Hok).
  exists new. split; [exact Hev|]. split.
  - intros k.
    pose proof (full_run_placement self
                  (length (sample_timesteps self diffusion_steps force_last_timestep))
                  (k `min` length new) Hne) as [Hcount _].
    rewrite Hfull, take_app_le in Hcount by lia.
    rewrite <- take_take, firstn_all in Hcount. exact Hcount.
  - intros Hr. specialize (Hok Hr). subst rest. rewrite app_nil_r in Hfull.
    rewrite <- Hfull. apply (full_run_placement self _ 0 Hne).
Qed.

End Run.

Lemma full_run_no_file_event (self : Sampler) (n : nat) :
  forallb (fun e => negb (file_event e)) (full_run self n) = true.
Proof.
  unfold full_run. rewrite !forallb_app. cbn.
  rewrite andb_true_r. apply forallb_forall. intros e He.
  apply in_map_iff in He. destruct He as (j & <- & _). reflexivity.
Qed.

(** X16 (SanaSampler.sample): [sample] touches the file system and calls
    [on_sample] only once the image is there and the three networks have
    left the train device: when it returns, its events are those of a
    whole run of [__sample_base] followed by the creation of the
    destination's directory, the saving of the image at the destination
    and the callback on the same image; when the generation raises, the
    exception is that of [sample] and there is no such event. *)
Theorem sample_saves_after_generation (self : Sampler) (lib : Library)
  (sample_config : SampleConfig) (destination : string) (s : State) :
  let out := sample self lib sample_config destination s in
  let n := length (sample_timesteps self (diffusion_steps sample_config)
                     (force_last_timestep sample_config)) in
  exists new : list Event,
    events (snd out) = events s ++ new
    /\ match fst out with
       | Ok _ =>
           exists image : Image,
             new = full_run self n
                   ++ [MakeDirs (path_parent lib destination);
                       SaveImage image destination; OnSample image]
       | Raise _ => forallb (fun e => negb (file_event e)) new = true
       end.
Proof.
  cbn zeta. unfold sample, sm_bind, emit.
  match goal with
  | |- context [__sample_base ?a ?b ?c ?d ?e ?f ?g ?h ?i ?j ?k ?l ?m ?n ?st] =>
      destruct (sample_base_events a b c d e f g h i j k l m n st)
        as (new & rest & Hev & Hfull & Hok);
      destruct (__sample_base a b c d e f g h i j k l m n st) as [[image|err] s1]
  end; cbn [fst snd is_ok events] in *.
  - specialize (Hok eq_refl). subst rest. rewrite app_nil_r in Hfull.
    eexists. split.
    + rewrite Hev, <- !app_assoc. reflexivity.
    + exists image. rewrite <- Hfull. reflexivity.
  - exists new. split; [exact Hev|].
    match type of Hfull with
    | full_run ?a ?n = _ => pose proof (full_run_no_file_event a n) as Hno
    end.
    rewrite Hfull, forallb_app in Hno.
    apply andb_true_iff in Hno. apply Hno.
Qed.

End Sampler.
End SanaSamplerBaseProperties.

(** ** The Flux model saver *)

Module FluxSaverProperties.
Import FluxFineTuneModelSaver.

Section Save.
Context {FluxModel ModelType ModelFormat Dtype : Type}.
Context `{EqDecision ModelFormat}.
Variable INTERNAL : ModelFormat.

(** X17 (FluxFineTuneModelSaver.save): the model is saved first, then
    its embeddings, both with the format, destination and dtype of the
    call; a failure of either leaves [save] at once with the exception.
    The internal data is saved exactly when both have returned and the
    format is [ModelFormat.INTERNAL], after them, and [save] then ends as
    that call does; for any other format [save] returns once the
    embeddings are saved.  The model type does not enter. *)
Theorem save_call_protocol (self : @Savers FluxModel ModelFormat Dtype)
  (model : FluxModel) (model_type : ModelType) (output_model_format : ModelFormat)
  (output_model_destination : string) (dtype : option Dtype) :
  let out :=
    save INTERNAL self model model_type output_model_format
      output_model_destination dtype in
  let base_result :=
    base_model_saver_save self model output_model_format output_model_destination
      dtype in
  let embedding_result :=
    embedding_model_saver_save_multiple self model output_model_format
      output_model_destination dtype in
  let base :=
    CallBaseSave model output_model_format output_model_destination dtype in
  let embedding :=
    CallEmbeddingSaveMultiple model output_model_format output_model_destination
      dtype in
  let internal := CallSaveInternalData model output_model_destination in
  (fst out = [base] \/ fst out = [base; embedding]
   \/ fst out = [base; embedding; internal])
  /\ (In embedding (fst out) <-> base_result = Ok tt)
  /\ (existsb is_internal_data (fst out) = true <->
      base_result = Ok tt /\ embedding_result = Ok tt
      /\ output_model_format = INTERNAL)
  /\ (existsb is_internal_data (fst out) = true ->
      fst out = [base; embedding; internal]
      /\ snd out = _save_internal_data self model output_model_destination)
  /\ (forall e, base_result = Raise e -> out = ([base], Raise e))
  /\ (forall e, base_result = Ok tt -> embedding_result = Raise e ->
        out = ([base; embedding], Raise e))
  /\ (base_result = Ok tt -> embedding_result = Ok tt ->
      output_model_format <> INTERNAL -> out = ([base; embedding], Ok tt))
  /\ (forall other : ModelType,
        save INTERNAL self model other output_model_format
          output_model_destination dtype = out).
Proof.
  cbv zeta. unfold save.
  destruct (base_model_saver_save self model output_model_format
              output_model_destination dtype) as [[]|eb];
    destruct (embedding_model_saver_save_multiple self model output_model_format
                output_model_destination dtype) as [[]|ee];
    destruct (decide (output_model_format = INTERNAL)) as [Hi|Hi]; cbn.
  all: repeat match goal with |- _ /\ _ => split end.
  all: try (intros; congruence).
  all: try tauto.
  all: try (split; intros; intuition congruence).
  all: try (split; [intros [Hc|[Hc|Hc]]; congruence || contradiction || reflexivity
                   | intros; auto]).
  all: try (split; [intros [Hc|Hc]; congruence || contradiction | intros; congruence]).
Qed.

End Save.
End FluxSaverProperties.

(** ** The sampling arguments *)

Module SampleArgsProperties.
Import SampleArgs.



End SampleArgsProperties.

(** ** The properties on the examples *)

Module MoreExamples.
Import Torch StableDiffusionModel StableDiffusionFineTuneSetup Instances MoreInstances
  DebugImages.


Lemma predict_empty_timestep_range_witness :
  timestep_high example_model args_no_noising <= 0
  /\ is_ok (@predict QFloat LcgRng example_model example_batch args_no_noising
              example_progress example_world) = false.
Proof.
  assert (Hhigh : timestep_high example_model args_no_noising <= 0)
    by (vm_compute; discriminate).
  split; [exact Hhigh|].
  exact (@PredictEdgeProperties.predict_empty_timestep_range QFloat LcgRng example_model
           example_batch args_no_noising example_progress example_world Hhigh).
Defined.

Lemma predict_batch_keys_witness :
  exists l w',
    example_run example_world = Ok (l, w')
    /\ example_batch !! "latent_image"%string = Some (BTensor (latent_image l))
    /\ (exists c, example_batch !! "latent_conditioning_image"%string = Some (BTensor c)
          /\ latent_conditioning_image l = Some c)
    /\ (exists m, example_batch !! "latent_mask"%string = Some (BTensor m)).
Proof.
  pose proof PredictProperties.example_runs as Hruns. unfold example_run in *.
  destruct (predict_forward example_model example_batch args_masked
              example_progress example_world) as [[l w']|e] eqn:Hrun; [|contradiction].
  exists l, w'. split; [reflexivity|].
  destruct (@PredictEdgeProperties.predict_batch_keys QFloat LcgRng example_model
              example_batch args_masked example_progress example_world w' l Hrun)
    as (Hli & _ & Hc & Hm & _).
  split; [exact Hli|]. split; [exact (Hc eq_refl) | exact (Hm eq_refl)].
Defined.

Lemma predict_noise_world_independent_witness :
  exists r1 w1 r2 w2,
    @predict QFloat LcgRng example_model example_batch args_masked example_progress
      example_world = Ok (r1, w1)
    /\ @predict QFloat LcgRng example_model example_batch args_masked example_progress
         later_world = Ok (r2, w2)
    /\ snd r1 = snd r2.
Proof.
  destruct (@predict QFloat LcgRng example_model example_batch args_masked
              example_progress example_world) as [[r1 w1]|e1] eqn:Hrun1.
  - destruct (@predict QFloat LcgRng example_model example_batch args_masked
                example_progress later_world) as [[r2 w2]|e2] eqn:Hrun2.
    + exists r1, w1, r2, w2. split; [reflexivity|]. split; [reflexivity|].
      exact (@PredictEdgeProperties.predict_noise_world_independent QFloat LcgRng
               example_model example_batch args_masked example_progress
               example_world w1 later_world w2 r1 r2 Hrun1 Hrun2).
    + exfalso.
      assert (Hok : is_ok (@predict QFloat LcgRng example_model example_batch
                             args_masked example_progress later_world) = true)
        by (vm_compute; reflexivity).
      rewrite Hrun2 in Hok. discriminate.
  - exfalso.
    assert (Hok : is_ok (@predict QFloat LcgRng example_model example_batch
                           args_masked example_progress example_world) = true)
      by (vm_compute; reflexivity).
    rewrite Hrun1 in Hok. discriminate.
Defined.

Lemma predict_timestep_source_witness :
  exists l w' st,
    example_run example_world = Ok (l, w')
    /\ timestep l = [524]
    /\ default_generator w' = advance (default_generator example_world)
    /\ generators w' = [st].
Proof.
  pose proof PredictProperties.example_runs as Hruns. unfold example_run in *.
  destruct (predict_forward example_model example_batch args_masked
              example_progress example_world) as [[l w']|e] eqn:Hrun; [|contradiction].
  destruct Hruns as (Hts & _).
  destruct (@PredictEdgeProperties.predict_timestep_source QFloat LcgRng example_model
              example_batch args_masked example_progress example_world w' l Hrun)
    as (_ & Hdef & st & Hgens).
  exists l, w', st. split; [reflexivity|]. split; [exact Hts|].
  rewrite Hts in Hdef. split; [exact Hdef | exact Hgens].
Defined.

Lemma predict_debug_images_witness :
  exists r w',
    @predict QFloat LcgRng example_model example_batch args_masked later_progress
      example_world = Ok (r, w')
    /\ map image_label (saved_images w')
       = [("dbg/training_batches", "1-noise", 121);
          ("dbg/training_batches", "2-predicted_noise", 121);
          ("dbg/training_batches", "3-noisy_image", 121);
          ("dbg/training_batches", "4-predicted_image", 120);
          ("dbg/training_batches", "5-image", 120);
          ("dbg/training_batches", "6-conditioning_image", 121)]%string.
Proof.
  destruct (@predict QFloat LcgRng example_model example_batch args_masked
              later_progress example_world) as [[r w']|e] eqn:Hrun.
  - exists r, w'. split; [reflexivity|].
    exact (@PredictEdgeProperties.predict_debug_images QFloat LcgRng example_model
             example_batch args_masked later_progress example_world w' r Hrun eq_refl).
  - exfalso.
    assert (Hok : is_ok (@predict QFloat LcgRng example_model example_batch
                           args_masked later_progress example_world) = true)
      by (vm_compute; reflexivity).
    rewrite Hrun in Hok. discriminate.
Defined.

Lemma sample_base_placement_witness :
  is_ok (fst example_sample_base) = true
  /\ exists new,
       SanaSamplerBase.events (snd example_sample_base) = new
       /\ (forall k : nat,
             (SanaSamplerBase.count_on "cuda"
                (SanaSamplerBase.placement_after example_placement (take k new)) <= 1)%nat)
       /\ SanaSamplerBase.placement_after example_placement new = example_placement.
Proof.
  assert (Hok : is_ok (fst example_sample_base) = true) by (vm_compute; reflexivity).
  split; [exact Hok|].
  destruct (@SanaSamplerBaseProperties.sample_base_placement QFloat LcgRng (list nat)
              example_sampler example_library "a photo" "" 64 96 42 false 3 (9 # 2)%Q
              "DDIM" (7 # 10)%Q 0 true example_sana_state example_placement
              ltac:(discriminate) eq_refl eq_refl eq_refl)
    as (new & Hev & Hcount & Hfinal).
  exists new. split; [exact Hev|]. split; [exact Hcount | exact (Hfinal Hok)].
Defined.

End MoreExamples.
